(** * LaBench: the load-generation engine of package [bench]

    A shallow embedding of [bench/bench.go], [bench/summary.go] and the
    status check of [web_requester.go], with the properties of the engine
    proved over it.

    Conventions.
    - Go's [int64], [int] and [time.Duration] are [Z] with the two's
      complement wrap-around written out ([wrap64]); [uint64] is [Z] reduced
      modulo [2^64] ([wrapU64]).
    - [float64] is Rocq's primitive binary64 float.
    - Go strings are [string] (sequences of bytes).
    - A Go [map[string]int] is a [gmap string Z]; the order in which a
      [range] loop visits it is not fixed by the language, so every function
      that ranges over a map takes the visiting order as an argument, and
      [MapRange] says which orders are possible.
    - A [panic] is the result [None].
    - Goroutines communicate through channels: a buffered channel is the
      list of values waiting in it, oldest first, and a [select] is a step
      relation with one rule per case that can proceed. *)

From Stdlib Require Import ZArith Lia Bool List String Ascii.
From Stdlib Require Import Floats DecimalString.
From Stdlib Require Uint63.
From Stdlib Require Import Sorting.Sorted Sorting.Permutation.
From stdpp Require Import base option list gmap strings fin_maps.

#[local] Open Scope Z_scope.
#[local] Set Warnings "-inexact-float".

(* ================================================================= *)
(** ** Machine integers and time *)

Definition wrap64 (z : Z) : Z := (z + 2^63) mod 2^64 - 2^63.
Definition wrapU64 (z : Z) : Z := z mod 2^64.

Definition minInt64 : Z := - 2^63.
Definition maxInt64 : Z := 2^63 - 1.

(** [time.Duration]: a count of nanoseconds held in an [int64]. *)
Definition Duration := Z.

Definition Nanosecond : Duration := 1.
Definition Millisecond : Duration := 1000000.
Definition Second : Duration := 1000000000.
Definition Hour : Duration := 3600 * Second.

(** [time.Time]: the reading of the monotonic clock, in nanoseconds. *)
Definition Time := Z.

(** [t.Sub(u)]: the difference, held at the ends of the [Duration] range. *)
Definition Time_Sub (t u : Time) : Duration :=
  Z.max minInt64 (Z.min maxInt64 (t - u)).

(** [t.Add(d)]. *)
Definition Time_Add (t : Time) (d : Duration) : Time := t + d.

(** [d.Nanoseconds()]. *)
Definition Nanoseconds (d : Duration) : Z := d.

(* ================================================================= *)
(** ** float64 conversions *)

(** [float64(z)] for an integer [z]: the nearest binary64, ties to even. *)
Definition float64_of_Z (z : Z) : float :=
  SF2Prim (binary_normalize prec emax z 0 false).

(** [int64(f)]: the value of [f] with its fraction dropped.  Outside the
    [int64] range (and for a NaN) the amd64 conversion gives the least
    [int64]. *)
Definition int64_of_float64 (f : float) : Z :=
  match Prim2SF f with
  | S754_zero _ => 0
  | S754_finite s m e =>
      let mag := if 0 <=? e then Z.pos m * 2 ^ e else Z.pos m / 2 ^ (- e) in
      let v := if s then - mag else mag in
      if (minInt64 <=? v) && (v <=? maxInt64) then v else minInt64
  | S754_infinity _ | S754_nan => minInt64
  end.

(** [d.Seconds()]. *)
Definition Seconds (d : Duration) : float :=
  (float64_of_Z (Z.quot d Second) + float64_of_Z (Z.rem d Second) / float64_of_Z 1000000000)%float.

(* ================================================================= *)
(** ** The HDR histogram (package [hdrhistogram], an external dependency)

    The engine only creates a histogram, records values into it and reads
    quantiles out of it.  The histogram is kept as its configuration and
    the values recorded so far, newest first.  Which values [RecordValue]
    refuses and what [ValueAtQuantile] answers is the library's business:
    both are parameters of the development ([HdrLib]). *)

Record Histogram := mkHistogram {
  lowestTrackableValue : Z;
  highestTrackableValue : Z;
  significantFigures : Z;
  recorded : list Z
}.

Record HdrLib := mkHdrLib {
  (** [recordable h v]: [h.RecordValue(v)] returns no error. *)
  recordable : Histogram -> Z -> bool;
  (** [h.ValueAtQuantile(q)]. *)
  ValueAtQuantile : Histogram -> float -> Z
}.

Definition hdrhistogram_New (minValue maxValue sigfigs : Z) : Histogram :=
  mkHistogram minValue maxValue sigfigs [].

(** [h.RecordValue(v)]: the histogram afterwards, and whether an error is
    returned ([false]: no error). *)
Definition RecordValue (lib : HdrLib) (h : Histogram) (v : Z) : Histogram * bool :=
  if recordable lib h v
  then (mkHistogram (lowestTrackableValue h) (highestTrackableValue h)
                    (significantFigures h) (v :: recorded h), false)
  else (h, true).

(** [h.TotalCount()]. *)
Definition TotalCount (h : Histogram) : Z := Z.of_nat (length (recorded h)).

(** [hdrhistogram.Import(h.Export())]: a copy. *)
Definition Import_Export (h : Histogram) : Histogram := h.

(* ================================================================= *)
(** ** [Benchmark] and [NewBenchmark] *)

Definition minRecordableLatencyNS : Z := 1000000.
Definition maxRecordableLatencyNS : Z := 100000000000.
Definition sigFigs : Z := 5.

Record Benchmark := mkBenchmark {
  connections : Z;
  requestRate : float;
  duration : Duration;
  baseLatency : Duration;
  expectedInterval : Duration;
  successHistogram : Histogram;
  successTotal : Z;
  errorTotal : Z;
  avgRequestTime : float;
  elapsed : Duration;
  timelyTicks : Z;
  missedTicks : Z;
  timelySends : Z;
  lateSends : Z;
  errors : gmap string Z
}.

(** [NewBenchmark]; [requestRate] and [connections] are [uint64].
    [log.Panicln] is the result [None]. *)
Definition NewBenchmark (requestRate connections : Z)
    (duration baseLatency : Duration) : option Benchmark :=
  let connections := if connections =? 0 then 1 else connections in
  if requestRate <=? 0 then None
  else Some {|
    connections := connections;
    requestRate := float64_of_Z requestRate;
    duration := duration;
    baseLatency := baseLatency;
    expectedInterval :=
      int64_of_float64 (float64_of_Z Second / float64_of_Z requestRate)%float;
    successHistogram :=
      hdrhistogram_New minRecordableLatencyNS maxRecordableLatencyNS sigFigs;
    successTotal := 0;
    errorTotal := 0;
    avgRequestTime := 0%float;
    elapsed := 0;
    timelyTicks := 0;
    missedTicks := 0;
    timelySends := 0;
    lateSends := 0;
    errors := ∅
  |}.

(** Assignments to the fields of a [Benchmark] that the goroutines write. *)
Definition set_successHistogram (b : Benchmark) (h : Histogram) : Benchmark :=
  mkBenchmark (connections b) (requestRate b) (duration b) (baseLatency b)
    (expectedInterval b) h (successTotal b) (errorTotal b)
    (avgRequestTime b) (elapsed b) (timelyTicks b) (missedTicks b)
    (timelySends b) (lateSends b) (errors b).

Definition set_errors (b : Benchmark) (m : gmap string Z) : Benchmark :=
  mkBenchmark (connections b) (requestRate b) (duration b) (baseLatency b)
    (expectedInterval b) (successHistogram b) (successTotal b) (errorTotal b)
    (avgRequestTime b) (elapsed b) (timelyTicks b) (missedTicks b)
    (timelySends b) (lateSends b) m.

Definition set_avgRequestTime (b : Benchmark) (a : float) : Benchmark :=
  mkBenchmark (connections b) (requestRate b) (duration b) (baseLatency b)
    (expectedInterval b) (successHistogram b) (successTotal b) (errorTotal b)
    a (elapsed b) (timelyTicks b) (missedTicks b)
    (timelySends b) (lateSends b) (errors b).

(** What a ticker stores when it finishes: [b.elapsed], [b.timelyTicks]
    and [b.missedTicks]. *)
Definition set_ticks (b : Benchmark) (el : Duration) (timely missed : Z) : Benchmark :=
  mkBenchmark (connections b) (requestRate b) (duration b) (baseLatency b)
    (expectedInterval b) (successHistogram b) (successTotal b) (errorTotal b)
    (avgRequestTime b) el timely missed
    (timelySends b) (lateSends b) (errors b).

(** The four [atomic.AddUint64] calls at the end of [worker]. *)
Definition atomic_add_sends (b : Benchmark) (late timely err succ : Z) : Benchmark :=
  mkBenchmark (connections b) (requestRate b) (duration b) (baseLatency b)
    (expectedInterval b) (successHistogram b)
    (wrapU64 (successTotal b + succ)) (wrapU64 (errorTotal b + err))
    (avgRequestTime b) (elapsed b) (timelyTicks b) (missedTicks b)
    (wrapU64 (timelySends b + timely)) (wrapU64 (lateSends b + late)) (errors b).

(* ================================================================= *)
(** ** [worker] *)

(** A [Requester].  [Setup] and [Teardown] are called once and return an
    error or [nil]; what each call of [Request] returns, and how long it
    takes, comes with the tick that triggers it ([TickEvent]). *)
Record Requester := mkRequester {
  Setup : option string;
  Teardown : option string
}.

(** One iteration of [for tick := range ticker]: the tick received, the
    clock reading [before], the result of [requester.Request()] and the
    reading [time.Since(before)]. *)
Record TickEvent := mkTickEvent {
  ev_tick : Time;
  ev_before : Time;
  ev_err : option string;
  ev_since : Duration
}.

(** The locals of [worker], with what it has sent on [results] and
    [errors] so far (oldest first). *)
Record WorkerLocals := mkWorkerLocals {
  w_lateSends : Z;
  w_timelySends : Z;
  w_errorTotal : Z;
  w_successTotal : Z;
  w_results : list Z;
  w_errors : list string
}.

Definition workerStart : WorkerLocals := mkWorkerLocals 0 0 0 0 [] [].

(** The body of the loop over the ticks. *)
Definition workerTick (b : Benchmark) (w : WorkerLocals) (ev : TickEvent) : WorkerLocals :=
  let late := expectedInterval b <=? Time_Sub (ev_before ev) (ev_tick ev) in
  let lateSends := if late then wrapU64 (w_lateSends w + 1) else w_lateSends w in
  let timelySends := if late then w_timelySends w else wrapU64 (w_timelySends w + 1) in
  let latency := Nanoseconds (ev_since ev) in
  match ev_err ev with
  | Some err =>
      mkWorkerLocals lateSends timelySends (wrapU64 (w_errorTotal w + 1))
        (w_successTotal w) (w_results w) (w_errors w ++ [err])
  | None =>
      let latency := if latency <? 0 then 0 else latency in
      mkWorkerLocals lateSends timelySends (w_errorTotal w)
        (wrapU64 (w_successTotal w + 1)) (w_results w ++ [latency]) (w_errors w)
  end.

(** [worker]: [None] when [Setup] fails ([maybePanic]); otherwise the
    benchmark after the counters are merged, the samples sent on [results]
    and on [errors], and the line logged when [Teardown] fails. *)
Definition worker (b : Benchmark) (requester : Requester) (ticks : list TickEvent)
    : option (Benchmark * list Z * list string * option string) :=
  match Setup requester with
  | Some _ => None
  | None =>
      let w := fold_left (workerTick b) ticks workerStart in
      Some (atomic_add_sends b (w_lateSends w) (w_timelySends w)
              (w_errorTotal w) (w_successTotal w),
            w_results w, w_errors w, Teardown requester)
  end.

(** The workers of one [Run], each with its requester and the ticks it
    received.  The counters are merged atomically, one worker after the
    other; the samples of all workers are gathered. *)
Fixpoint workers (b : Benchmark) (ws : list (Requester * list TickEvent))
    : option (Benchmark * list Z * list string) :=
  match ws with
  | [] => Some (b, [], [])
  | (requester, ticks) :: ws' =>
      match worker b requester ticks with
      | None => None
      | Some (b1, rs, es, _) =>
          match workers b1 ws' with
          | None => None
          | Some (b2, rs', es') => Some (b2, rs ++ rs', es ++ es')
          end
      end
  end.

(* ================================================================= *)
(** ** [collectorFunc] *)

(** The goroutine's view: the benchmark (it writes [successHistogram],
    [errors] and, on return, [avgRequestTime]) and its two locals. *)
Record Collector := mkCollector {
  col_b : Benchmark;
  col_successTotal : Z;
  col_avgRequestTime : float
}.

Definition collectorStart (b : Benchmark) : Collector := mkCollector b 0 0%float.

(** [case sample := <-results]. [None]: [maybePanic] panics. *)
Definition collectSample (lib : HdrLib) (c : Collector) (sample : Z) : option Collector :=
  let b := col_b c in
  let baseLatency := Nanoseconds (baseLatency b) in
  let successTotal := wrap64 (col_successTotal c + 1) in
  let '(h, err) := RecordValue lib (successHistogram b) (wrap64 (sample - baseLatency)) in
  if err then None
  else
    let avg :=
      ((col_avgRequestTime c * float64_of_Z (wrap64 (successTotal - 1))
        + float64_of_Z (Z.quot sample 1000000)) / float64_of_Z successTotal)%float in
    Some (mkCollector (set_successHistogram b h) successTotal avg).

(** [case err := <-errors]: [b.errors[err.Error()]++]. *)
Definition collectError (c : Collector) (err : string) : Collector :=
  let b := col_b c in
  mkCollector
    (set_errors b (<[err := wrap64 (default 0 (errors b !! err) + 1)]> (errors b)))
    (col_successTotal c) (col_avgRequestTime c).

(** [case <-doneCh]. *)
Definition collectDone (c : Collector) : Benchmark :=
  set_avgRequestTime (col_b c) (col_avgRequestTime c).

(** The channels [collectorFunc] receives from: the samples buffered in
    [results] and in [errors], and whether [stopCollector] is closed. *)
Record Chans := mkChans {
  ch_results : list Z;
  ch_errors : list string;
  ch_stop : bool
}.

Inductive CollectorState :=
| Collecting (c : Collector) (ch : Chans)
| CollectorReturned (b : Benchmark) (ch : Chans)
| CollectorPanicked.

(** One pass through the [select]: any case whose channel can be received
    from may be the one taken. *)
Inductive collectorStep (lib : HdrLib) : CollectorState -> CollectorState -> Prop :=
| step_sample c sample rs es stop c' :
    collectSample lib c sample = Some c' ->
    collectorStep lib (Collecting c (mkChans (sample :: rs) es stop))
                      (Collecting c' (mkChans rs es stop))
| step_sample_panic c sample rs es stop :
    collectSample lib c sample = None ->
    collectorStep lib (Collecting c (mkChans (sample :: rs) es stop)) CollectorPanicked
| step_error c err rs es stop :
    collectorStep lib (Collecting c (mkChans rs (err :: es) stop))
                      (Collecting (collectError c err) (mkChans rs es stop))
| step_done c rs es :
    collectorStep lib (Collecting c (mkChans rs es true))
                      (CollectorReturned (collectDone c) (mkChans rs es true)).

(** [collectorFunc]: the states the goroutine can reach. *)
Definition collectorFunc (lib : HdrLib) : CollectorState -> CollectorState -> Prop :=
  rtc (collectorStep lib).

(* ================================================================= *)
(** ** The timer-resolution probe and the tickers *)

(** The inner loop of [detectOsTimerResolution]: the readings of
    [time.Since(start)] one after the other, up to the first positive one.
    [None]: the loop is still spinning when the readings end. *)
Fixpoint firstPositive (readings : list Duration) : option Duration :=
  match readings with
  | [] => None
  | timerRes :: rest => if 0 <? timerRes then Some timerRes else firstPositive rest
  end.

(** [n] more rounds of the outer loop; [clock] holds the readings of each
    round still to come. *)
Fixpoint detectTrials (n : nat) (clock : list (list Duration)) (bestTimerRes : Duration)
    : option Duration :=
  match n with
  | O => Some bestTimerRes
  | S n' =>
      match clock with
      | [] => None
      | readings :: clock' =>
          match firstPositive readings with
          | None => None
          | Some timerRes =>
              detectTrials n' clock'
                (if timerRes <? bestTimerRes then timerRes else bestTimerRes)
          end
      end
  end.

Definition detectOsTimerResolution (clock : list (list Duration)) : option Duration :=
  detectTrials 10 clock Hour.

Inductive TickerKind := SleepingTicker | TightTicker.

(** The test of [tickerFunc] that chooses the ticker. *)
Definition chooseTicker (b : Benchmark) (timerRes : Duration) (forceTightTicker : bool)
    : TickerKind :=
  if negb forceTightTicker && (wrap64 (7 * timerRes) <=? expectedInterval b)
  then SleepingTicker else TightTicker.

(** Whether [tickerFunc] prints its warning. *)
Definition timerWarning (b : Benchmark) (timerRes : Duration) : bool :=
  expectedInterval b <? wrap64 (timerRes * 3).

(** What a ticker has done so far: its locals, the ticks workers have
    received from [outCh] (oldest first), and whether [outCh] is closed. *)
Record Ticker := mkTicker {
  tk_lastTick : Time;
  tk_timelyTicks : Z;
  tk_missedTicks : Z;
  tk_out : list Time;
  tk_closed : bool
}.

(** [select { case outCh <- t: timelyTicks++; default: missedTicks++ }];
    [ready]: a worker is waiting to receive. *)
Definition trySend (t : Ticker) (tick : Time) (ready : bool) : Ticker :=
  if ready
  then mkTicker (tk_lastTick t) (wrapU64 (tk_timelyTicks t + 1)) (tk_missedTicks t)
                (tk_out t ++ [tick]) (tk_closed t)
  else mkTicker (tk_lastTick t) (tk_timelyTicks t) (wrapU64 (tk_missedTicks t + 1))
                (tk_out t) (tk_closed t).

Definition closeOut (t : Ticker) : Ticker :=
  mkTicker (tk_lastTick t) (tk_timelyTicks t) (tk_missedTicks t) (tk_out t) true.

Definition set_lastTick (t : Ticker) (lastTick : Time) : Ticker :=
  mkTicker lastTick (tk_timelyTicks t) (tk_missedTicks t) (tk_out t) (tk_closed t).

(** One reading [thisTick = time.Now()] of the tight ticker's inner loop,
    with whether a worker is waiting at that moment. *)
Record Poll := mkPoll {
  poll_now : Time;
  poll_ready : bool
}.

(** What the tight ticker does with one reading: nothing when the interval
    has not passed; otherwise the rest of the outer loop's body.  The
    boolean says that the outer loop was left. *)
Definition tightPoll (b : Benchmark) (start : Time) (t : Ticker) (p : Poll) : Ticker * bool :=
  let thisTick := poll_now p in
  if expectedInterval b <=? Time_Sub thisTick (tk_lastTick t) then
    let t1 := set_lastTick t (Time_Add (tk_lastTick t) (expectedInterval b)) in
    let t2 := trySend t1 thisTick (poll_ready p) in
    if duration b <? Time_Sub thisTick start then (closeOut t2, true) else (t2, false)
  else (t, false).

Fixpoint tightLoop (b : Benchmark) (start : Time) (t : Ticker) (polls : list Poll)
    : Ticker * bool :=
  match polls with
  | [] => (t, false)
  | p :: polls' =>
      let '(t', stop) := tightPoll b start t p in
      if stop then (t', true) else tightLoop b start t' polls'
  end.

(** [tightTicker]: [start] is the first clock reading, [polls] the ones of
    the loop and [finish] the value of [time.Since(start)] after it.
    [None]: the ticker is still looping when the readings end. *)
Definition tightTicker (b : Benchmark) (start : Time) (polls : list Poll)
    (finish : Duration) : option (Benchmark * Ticker) :=
  match tightLoop b start (mkTicker start 0 0 [] false) polls with
  | (t, true) => Some (set_ticks b finish (tk_timelyTicks t) (tk_missedTicks t), t)
  | (_, false) => None
  end.

(** What the sleeping ticker's [select] receives: a tick from [time.Tick]
    (with whether a worker is waiting), or the signal of [time.After]. *)
Inductive SleepEvent :=
| TickFires (t : Time) (ready : bool)
| DurationOver.

Fixpoint sleepingLoop (t : Ticker) (events : list SleepEvent) : Ticker * bool :=
  match events with
  | [] => (t, false)
  | TickFires tm ready :: events' => sleepingLoop (trySend t tm ready) events'
  | DurationOver :: _ => (closeOut t, true)
  end.

(** [sleepingTicker]: the first tick is sent with a blocking send. *)
Definition sleepingTicker (b : Benchmark) (start : Time) (events : list SleepEvent)
    (finish : Duration) : option (Benchmark * Ticker) :=
  match sleepingLoop (mkTicker start (wrapU64 (0 + 1)) 0 [start] false) events with
  | (t, true) => Some (set_ticks b finish (tk_timelyTicks t) (tk_missedTicks t), t)
  | (_, false) => None
  end.

(** [tickerFunc]: probe the clock, choose, and run the ticker chosen. *)
Definition tickerFunc (b : Benchmark) (clock : list (list Duration))
    (forceTightTicker : bool) (start : Time) (polls : list Poll)
    (events : list SleepEvent) (finish : Duration)
    : option (TickerKind * Benchmark * Ticker) :=
  match detectOsTimerResolution clock with
  | None => None
  | Some timerRes =>
      match chooseTicker b timerRes forceTightTicker with
      | SleepingTicker =>
          option_map (fun r => (SleepingTicker, fst r, snd r))
                     (sleepingTicker b start events finish)
      | TightTicker =>
          option_map (fun r => (TightTicker, fst r, snd r))
                     (tightTicker b start polls finish)
      end
  end.

(* ================================================================= *)
(** ** [summarize]: the error keys *)

#[local] Open Scope string_scope.

(** [\d] of Go's [regexp]: an ASCII digit. *)
Definition isDigit (c : ascii) : bool :=
  ((48 <=? nat_of_ascii c) && (nat_of_ascii c <=? 57))%nat.

(** [(\d+)] is greedy: the longest run of digits at the head of [s]. *)
Fixpoint takeDigits (s : string) : string :=
  match s with
  | String c s' => if isDigit c then String c (takeDigits s') else ""
  | "" => ""
  end.

(** [s] without its prefix [p], when [p] is one. *)
Fixpoint stripPrefix (p s : string) : option string :=
  match p, s with
  | "", _ => Some s
  | String a p', String c s' => if Ascii.eqb a c then stripPrefix p' s' else None
  | String _ _, "" => None
  end.

(** The literal part of [`Expected 200-response, but got (\d+)`]. *)
Definition errorCodeLiteral : string := "Expected 200-response, but got ".

(** The regular expression matched at the head of [s]: the whole match and
    the group. *)
Definition matchHere (s : string) : option (list string) :=
  match stripPrefix errorCodeLiteral s with
  | Some rest =>
      match takeDigits rest with
      | "" => None
      | code => Some [errorCodeLiteral ++ code; code]
      end
  | None => None
  end.

(** [r.FindStringSubmatch(s)]: the leftmost match; [nil] is [[]]. *)
Fixpoint FindStringSubmatch (s : string) : list string :=
  match matchHere s with
  | Some m => m
  | None =>
      match s with
      | "" => []
      | String _ s' => FindStringSubmatch s'
      end
  end.

(** The key [summarize] files an error text under. *)
Definition errorKey (errorText : string) : string :=
  let errorCodeMatches := FindStringSubmatch errorText in
  if (1 <? length errorCodeMatches)%nat
  then nth 1 errorCodeMatches ""
  else errorText.

(** The orders in which [for k, v := range m] may visit [m]. *)
Definition MapRange (m : gmap string Z) (order : list (string * Z)) : Prop :=
  order ≡ₚ map_to_list m.

(** The loop of [summarize] over [b.errors], visited in [order]. *)
Definition formatErrors (order : list (string * Z)) : gmap string Z :=
  fold_left (fun formattedErrors entry =>
               <[errorKey (fst entry) := snd entry]> formattedErrors)
            order ∅.

Record Summary := mkSummary {
  Connections : Z;
  RequestRate : float;
  SuccessTotal : Z;
  ErrorTotal : Z;
  TimeElapsed : Duration;
  SuccessHistogram : Histogram;
  Throughput : float;
  AvgRequestTime : float;
  Errors : gmap string Z;
  TicksTimely : Z;
  TicksTimelyRatio : float;
  SendsTimely : Z;
  SendsTimelyRatio : float;
  OutputJson : bool
}.

(** [summarize]; [order] is the order in which [b.errors] is visited. *)
Definition summarize (b : Benchmark) (order : list (string * Z)) (outputJson : bool)
    : Summary :=
  {| SuccessTotal := successTotal b;
     ErrorTotal := errorTotal b;
     TimeElapsed := elapsed b;
     SuccessHistogram := Import_Export (successHistogram b);
     Throughput :=
       (float64_of_Z (wrapU64 (successTotal b + errorTotal b)) / Seconds (elapsed b))%float;
     AvgRequestTime := avgRequestTime b;
     RequestRate := requestRate b;
     Connections := connections b;
     Errors := formatErrors order;
     TicksTimely := timelyTicks b;
     TicksTimelyRatio :=
       (float64_of_Z (timelyTicks b) * 100
        / float64_of_Z (wrapU64 (timelyTicks b + missedTicks b)))%float;
     SendsTimely := timelySends b;
     SendsTimelyRatio :=
       (float64_of_Z (timelySends b) * 100
        / float64_of_Z (wrapU64 (timelySends b + lateSends b)))%float;
     OutputJson := outputJson |}.

(* ================================================================= *)
(** ** [Summary.String]: the error table *)

Record Error := mkError {
  ErrorCode : string;
  Count : Z
}.

Abbreviation ErrorList := (list Error).

(** [ErrorList.Less]. *)
Definition Less (p : ErrorList) (i j : nat) : bool :=
  match p !! i, p !! j with
  | Some a, Some c => (Count a <? Count c)%Z
  | _, _ => false
  end.

(** [sort.Reverse(data).Less]. *)
Definition Reverse_Less {A} (less : list A -> nat -> nat -> bool)
    (data : list A) (i j : nat) : bool :=
  less data j i.

(** [sort.Sort] (package [sort] of the Go library) as its documentation
    has it: the elements are rearranged so that none is [Less] than one
    before it; the sort is not guaranteed to be stable. *)
Definition sort_Sort {A} (less : list A -> nat -> nat -> bool)
    (data data' : list A) : Prop :=
  data ≡ₚ data' /\
  forall i j : nat, (i < j < length data')%nat -> less data' j i = false.

(** The slice [el] of [String] before it is sorted; [order] is the order
    in which [s.Errors] is visited. *)
Definition errorList (order : list (string * Z)) : ErrorList :=
  map (fun entry => mkError (fst entry) (snd entry)) order.

(** The rows of the error table of [s.String()], top to bottom: [el] after
    [sort.Sort(sort.Reverse(el))]. *)
Definition errorRows (s : Summary) (el : ErrorList) : Prop :=
  exists order, MapRange (Errors s) order /\
                sort_Sort (Reverse_Less Less) (errorList order) el.

(* ================================================================= *)
(** ** [generateLatencyDistribution] *)

(** The formatting verbs of package [fmt] used on floats: ["%f"]. *)
Record FmtLib := mkFmtLib {
  fmt_f : float -> string
}.

(** [strconv.Itoa], and ["%d"] and ["%v"] of an integer. *)
Definition itoa (z : Z) : string := NilZero.string_of_int (Z.to_int z).

(** The files written so far, by name, and the outcomes of the calls of
    [os.Create] and [WriteString] still to come ([true]: the call fails;
    none left: it succeeds). *)
Record Disk := mkDisk {
  files : gmap string string;
  faults : list bool
}.

Definition nextFault (d : Disk) : bool * Disk :=
  match faults d with
  | [] => (false, d)
  | f :: fs => (f, mkDisk (files d) fs)
  end.

(** [os.Create(name)]: the error, if any. *)
Definition os_Create (d : Disk) (name : string) : Disk * option string :=
  let '(fail, d) := nextFault d in
  if fail then (d, Some ("open " ++ name))
  else (mkDisk (<[name := ""]> (files d)) (faults d), None).

(** [f.WriteString(s)] on the file created as [name]. *)
Definition WriteString (d : Disk) (name s : string) : Disk * option string :=
  let '(fail, d) := nextFault d in
  if fail then (d, Some ("write " ++ name))
  else (mkDisk (<[name := default "" (files d !! name) ++ s]> (files d)) (faults d), None).

(** [Percentiles] is a slice of [float64]: [None] is the [nil] slice. *)
Definition Percentiles := option (list float).

(** Modelled from the spec: the default percentile set [Logarithmic],
    declared in a file of package [bench] that is not among the sources. *)
Definition Logarithmic : list float :=
  [0; 10; 20; 30; 40; 50; 55; 60; 65; 70; 75; 80; 85; 90; 92.5; 95; 97.5;
   98; 99; 99.5; 99.75; 99.9; 99.95; 99.99; 99.999; 100]%float.

Definition distributionHeader : string :=
  "Value    Percentile    TotalCount    1/(1-Percentile)" ++ "
" ++ "
".

(** [fmt.Sprintf("%f    %f        %d            %f\n", value,
    percentile/100, 0, 1/(1-(percentile/100)))]. *)
Definition distributionRow (lib : HdrLib) (fmt : FmtLib) (histogram : Histogram)
    (percentile : float) : string :=
  let value := (float64_of_Z (ValueAtQuantile lib histogram percentile) / 1000000)%float in
  fmt_f fmt value ++ "    " ++ fmt_f fmt (percentile / 100)%float ++ "        "
    ++ itoa 0 ++ "            "
    ++ fmt_f fmt (1 / (1 - (percentile / 100)))%float ++ "
".

(** [for _, percentile := range percentiles { ... }]: one write per
    percentile; the first failing write ends the function. *)
Fixpoint writeRows (lib : HdrLib) (fmt : FmtLib) (d : Disk) (file : string)
    (histogram : Histogram) (percentiles : list float) : Disk * option string :=
  match percentiles with
  | [] => (d, None)
  | percentile :: rest =>
      match WriteString d file (distributionRow lib fmt histogram percentile) with
      | (d1, Some err) => (d1, Some err)
      | (d1, None) => writeRows lib fmt d1 file histogram rest
      end
  end.

(** [generateLatencyDistribution]; a [nil] histogram pointer is [None].
    The result of writing the header is not looked at. *)
Definition generateLatencyDistribution (lib : HdrLib) (fmt : FmtLib) (d : Disk)
    (histogram : Histogram) (unHistogram : option Histogram) (requestRate : float)
    (percentiles : Percentiles) (file : string) : Disk * option string :=
  let percentiles := match percentiles with None => Logarithmic | Some ps => ps end in
  match os_Create d file with
  | (d1, Some err) => (d1, Some err)
  | (d1, None) =>
      let d2 := fst (WriteString d1 file distributionHeader) in
      match writeRows lib fmt d2 file histogram percentiles with
      | (d3, Some err) => (d3, Some err)
      | (d3, None) =>
          match unHistogram with
          | Some un =>
              if (0 <? requestRate)%float then
                let file' := file ++ ".uncorrected" in
                match os_Create d3 file' with
                | (d4, Some err) => (d4, Some err)
                | (d4, None) =>
                    let d5 := fst (WriteString d4 file' distributionHeader) in
                    writeRows lib fmt d5 file' un percentiles
                end
              else (d3, None)
          | None => (d3, None)
          end
      end
  end.

(** [Summary.GenerateLatencyDistribution]. *)
Definition GenerateLatencyDistribution (lib : HdrLib) (fmt : FmtLib) (d : Disk)
    (s : Summary) (percentiles : Percentiles) (file : string) : Disk * option string :=
  generateLatencyDistribution lib fmt d (SuccessHistogram s) None (RequestRate s)
    percentiles file.

(* ================================================================= *)
(** ** [webRequester.Request]: the checks on the response *)

Record webRequester := mkWebRequester {
  expectedReturnCode : Z
}.

(** One exchange: an error met before the request is sent ([url.Parse],
    [http.NewRequest], the host headers), the error of [httpClient.Do], and
    the status code of the response ([None]: a [nil] response). *)
Record Exchange := mkExchange {
  ex_early : option string;
  ex_err : option string;
  ex_status : option Z
}.

(** [fmt.Errorf("Expected %v got %v", expected, actual).Error()]. *)
Definition statusError (expected actual : Z) : string :=
  "Expected " ++ itoa expected ++ " got " ++ itoa actual.

(** [Request]: the text of the error returned, [None] for [nil]. *)
Definition Request (w : webRequester) (x : Exchange) : option string :=
  match ex_early x with
  | Some err => Some err
  | None =>
      match ex_err x with
      | Some err => Some err
      | None =>
          match ex_status x with
          | None => Some "Nil response"
          | Some code =>
              if (code =? expectedReturnCode w)%Z then None
              else Some (statusError (expectedReturnCode w) code)
          end
      end
  end.

#[local] Close Scope string_scope.

(* ================================================================= *)
(** ** Counting ticks and reading texts *)

(** Whether a tick is picked up late. *)
Definition isLate (b : Benchmark) (ev : TickEvent) : bool :=
  expectedInterval b <=? Time_Sub (ev_before ev) (ev_tick ev).

Definition lateCount (b : Benchmark) (ticks : list TickEvent) : Z :=
  Z.of_nat (length (filter (fun ev => isLate b ev = true) ticks)).

Definition timelyCount (b : Benchmark) (ticks : list TickEvent) : Z :=
  Z.of_nat (length (filter (fun ev => isLate b ev = false) ticks)).

Definition failedCount (ticks : list TickEvent) : Z :=
  Z.of_nat (length (filter (fun ev => is_Some (ev_err ev)) ticks)).

Definition succeededCount (ticks : list TickEvent) : Z :=
  Z.of_nat (length (filter (fun ev => ev_err ev = None) ticks)).

Definition totalTicks (ws : list (Requester * list TickEvent)) : Z :=
  Z.of_nat (length (concat (map snd ws))).

Definition allTicks (ws : list (Requester * list TickEvent)) : list TickEvent :=
  concat (map snd ws).

(** The four counters the workers add to hold [uint64] values. *)
Definition countersU64 (b : Benchmark) : Prop :=
  0 <= lateSends b < 2^64 /\ 0 <= timelySends b < 2^64 /\
  0 <= errorTotal b < 2^64 /\ 0 <= successTotal b < 2^64.

(** Every byte of [s] is an ASCII digit. *)
Fixpoint allDigits (s : string) : bool :=
  match s with
  | EmptyString => true
  | String c r => isDigit c && allDigits r
  end.

(** [s] reads as a decimal integer: digits, after a minus sign or not. *)
Definition decimalText (s : string) : bool :=
  match s with
  | EmptyString => false
  | String c r => (isDigit c || Ascii.eqb c "-") && allDigits r
  end.

(** No byte of [s] is a capital E. *)
Fixpoint noCapitalE (s : string) : bool :=
  match s with
  | EmptyString => true
  | String c r => negb (Ascii.eqb c "E") && noCapitalE r
  end.

(** The texts of [rows], one after the other. *)
Definition joinRows (rows : list string) : string :=
  fold_right String.append EmptyString rows.

(** The test that the interval computed for [rate] is the whole number of
    nanoseconds in [1s / rate], with the conversions done by the machine. *)
Definition quotientCheck (rate : Z) : bool :=
  int64_of_float64 (PrimFloat.of_uint63 (Uint63.of_Z Second)
                    / PrimFloat.of_uint63 (Uint63.of_Z rate))%float
  =? Second / rate.

(** The test for the [n] rates from [rate] on. *)
Fixpoint quotientChecks (n : nat) (rate : Z) : bool :=
  match n with
  | O => true
  | S n' => quotientCheck rate && quotientChecks n' (rate + 1)
  end.

(* ================================================================= *)
(** ** Values used in the examples *)

(** A histogram library that accepts the values from 0 up to the highest
    trackable one; its quantiles are not used in the examples. *)
Definition rangeLib : HdrLib :=
  mkHdrLib (fun h v => (0 <=? v)%Z && (v <=? highestTrackableValue h)%Z) (fun _ _ => 0%Z).

(** A formatter that prints every float as ["?"]. *)
Definition opaqueFmt : FmtLib := mkFmtLib (fun _ => "?"%string).

(** A requester whose [Setup] and [Teardown] succeed. *)
Definition plainRequester : Requester := mkRequester None None.

(** 100 requests a second on one connection for two seconds, with a base
    latency of [base] nanoseconds. *)
Definition benchmarkWithBase (base : Duration) : Benchmark :=
  default (mkBenchmark 0 0 0 0 0 (hdrhistogram_New 0 0 0) 0 0 0 0 0 0 0 0 ∅)
          (NewBenchmark 100 1 (2 * Second) base).

(** 100 requests a second on one connection for [dur]. *)
Definition benchmarkFor (dur : Duration) : Benchmark :=
  default (benchmarkWithBase 0) (NewBenchmark 100 1 dur 0).

(** The summary of a run in which seven requests timed out and two got
    a 503. *)
Definition summaryWithErrors : Summary :=
  summarize (set_errors (benchmarkWithBase 0)
               (<["timeout"%string := 7]>
                  {["Expected 200-response, but got 503"%string := 2]}))
            [("Expected 200-response, but got 503"%string, 2); ("timeout"%string, 7)]
            false.

(** The summary of a run with one refused connection, met first, and one
    timeout, met second. *)
Definition summaryWithTie : Summary :=
  summarize (set_errors (benchmarkWithBase 0)
               (<["timeout"%string := 1]> {["connection refused"%string := 1]}))
            [("connection refused"%string, 1); ("timeout"%string, 1)]
            false.

(* ================================================================= *)
(** * More of the program *)

(** The ticks [time.Tick] fires before [time.After] signals. *)
Fixpoint ticksBeforeOver (events : list SleepEvent) : option (list (Time * bool)) :=
  match events with
  | [] => None
  | TickFires t ready :: events' =>
      option_map (cons (t, ready)) (ticksBeforeOver events')
  | DurationOver :: _ => Some []
  end.

(** What the collector has done in a state it can reach from the start
    [c0] with [rs0] and [es0] in the channels: the samples and errors
    [taken] so far, with what is left of the channels. *)
Definition collectorProgress (lib : HdrLib) (c0 : Collector) (rs0 : list Z)
    (es0 : list string) (stop0 : bool) (st : CollectorState) : Prop :=
  match st with
  | Collecting c ch =>
      exists taken etaken,
        rs0 = taken ++ ch_results ch /\ es0 = etaken ++ ch_errors ch /\
        ch_stop ch = stop0 /\
        baseLatency (col_b c) = baseLatency (col_b c0) /\
        recorded (successHistogram (col_b c)) =
          rev (map (fun s => wrap64 (s - baseLatency (col_b c0))) taken)
          ++ recorded (successHistogram (col_b c0)) /\
        (forall k, default 0 (errors (col_b c) !! k) =
                   wrap64 (default 0 (errors (col_b c0) !! k)
                           + Z.of_nat (length (filter (fun e => e = k) etaken)))) /\
        (forall k, is_Some (errors (col_b c) !! k) <->
                   is_Some (errors (col_b c0) !! k) \/ k ∈ etaken)
  | CollectorReturned b ch =>
      stop0 = true /\
      exists taken etaken,
        rs0 = taken ++ ch_results ch /\ es0 = etaken ++ ch_errors ch /\
        recorded (successHistogram b) =
          rev (map (fun s => wrap64 (s - baseLatency (col_b c0))) taken)
          ++ recorded (successHistogram (col_b c0)) /\
        (forall k, default 0 (errors b !! k) =
                   wrap64 (default 0 (errors (col_b c0) !! k)
                           + Z.of_nat (length (filter (fun e => e = k) etaken)))) /\
        (forall k, is_Some (errors b !! k) <->
                   is_Some (errors (col_b c0) !! k) \/ k ∈ etaken)
  | CollectorPanicked =>
      exists taken sample rest,
        rs0 = taken ++ sample :: rest /\
        exists h, recordable lib h (wrap64 (sample - baseLatency (col_b c0))) = false /\
                  recorded h =
                    rev (map (fun s => wrap64 (s - baseLatency (col_b c0))) taken)
                    ++ recorded (successHistogram (col_b c0))
  end.

(** [rest] does not go on with a digit. *)
Definition noLeadingDigit (rest : string) : bool :=
  match rest with
  | EmptyString => true
  | String c _ => negb (isDigit c)
  end.

(* ================================================================= *)
(** ** [WebRequesterFactory.GetRequester] and the whole of [Request] *)

(** Go's [int32]. *)
Definition wrap32 (z : Z) : Z := (z + 2^31) mod 2^32 - 2^31.

(** What the requester asks of the packages [net/url], [net/http], [os]
    and [io/ioutil]: the error of [url.Parse(rawURL)] ([None]: it
    parses); the text of the parsed URL once its [Host] is set; the error
    of [http.NewRequest(method, url, body)]; [os.ExpandEnv]; and the
    contents of a file ([None]: [ioutil.ReadFile] fails). *)
Record NetLib := mkNetLib {
  url_Parse : string -> option string;
  with_Host : string -> string -> string;
  http_NewRequest : string -> string -> option string;
  os_ExpandEnv : string -> string;
  ioutil_ReadFile : string -> option string
}.

(** [WebRequesterFactory]; a [nil] slice or map is [None]. *)
Record WebRequesterFactory := mkWebRequesterFactory {
  URL : string;
  URLs : option (list string);
  Hosts : option (list string);
  Headers : gmap string string;
  Body : string;
  BodyFile : string;
  ExpectedHTTPStatusCode : Z;
  HTTPMethod : string;
  expandedHeaders : option (gmap string (list string))
}.

(** All the fields of the struct [webRequester]. *)
Record webRequesterFields := mkWebRequesterFields {
  url : string;
  urls : option (list string);
  hosts : option (list string);
  headers : gmap string (list string);
  body : string;
  statusCheck : webRequester;
  httpMethod : string
}.

(** [GetRequester]: the factory afterwards and the requester; [None] when
    [maybePanic] panics over the body file. *)
Definition GetRequester (net : NetLib) (w : WebRequesterFactory)
    : option (WebRequesterFactory * webRequesterFields) :=
  let expanded :=
    match expandedHeaders w with
    | Some e => e
    | None => (fun val => [os_ExpandEnv net val]) <$> Headers w
    end in
  let content :=
    if String.eqb (BodyFile w) "" then Some (Body w)
    else ioutil_ReadFile net (BodyFile w) in
  match content with
  | None => None
  | Some body =>
      Some (mkWebRequesterFactory (URL w) (URLs w) (Hosts w) (Headers w) body
              (BodyFile w) (ExpectedHTTPStatusCode w) (HTTPMethod w) (Some expanded),
            mkWebRequesterFields (URL w) (URLs w) (Hosts w) expanded body
              (mkWebRequester (ExpectedHTTPStatusCode w)) (HTTPMethod w))
  end.

(** The URL a request goes to. *)
Inductive Picked :=
| PickPanic
| PickError (err : string)
| PickURL (reqURL : string).

(** [s[h % int32(len(s))]]: a panic when the length is 0 as an [int32]
    (division by zero) and when the remainder, which has the sign of [h],
    is negative (index out of range). *)
Definition rotate (s : list string) (h : Z) : option string :=
  let n := wrap32 (Z.of_nat (length s)) in
  if n =? 0 then None
  else
    let i := Z.rem h n in
    if i <? 0 then None else s !! Z.to_nat i.

(** The first part of [Request]: the choice of the URL, with the counter
    [nextHostOrURL] before and after. *)
Definition selectURL (net : NetLib) (w : webRequesterFields) (nextHostOrURL : Z)
    : Picked * Z :=
  match urls w with
  | Some us =>
      let h := wrap32 (nextHostOrURL + 1) in
      match rotate us h with
      | Some reqURL => (PickURL reqURL, h)
      | None => (PickPanic, h)
      end
  | None =>
      match hosts w with
      | Some hs =>
          match url_Parse net (url w) with
          | Some err => (PickError err, nextHostOrURL)
          | None =>
              let h := wrap32 (nextHostOrURL + 1) in
              match rotate hs h with
              | Some host => (PickURL (with_Host net (url w) host), h)
              | None => (PickPanic, h)
              end
          end
      | None => (PickURL (url w), nextHostOrURL)
      end
  end.

(** What the host headers make of [req.Host]. *)
Inductive HostHeader :=
| HostError (err : string)
| HostIs (host : string)
| HostUnset.

Definition hostHeader (hdrs : gmap string (list string)) : HostHeader :=
  match hdrs !! "host"%string with
  | Some host =>
      match host with
      | [h] => HostIs h
      | _ => HostError "multiple host headers are not allowed"
      end
  | None =>
      match hdrs !! "Host"%string with
      | Some host =>
          match host with
          | [h] => HostIs h
          | _ => HostError "multiple host headers are not allowed"
          end
      | None => HostUnset
      end
  end.

(** [Request] from its first line: [None] is a panic; otherwise the error
    returned ([None] for [nil]).  [doErr] and [status] are what
    [httpClient.Do] comes back with, as in [Exchange]. *)
Definition RequestAll (net : NetLib) (w : webRequesterFields) (nextHostOrURL : Z)
    (doErr : option string) (status : option Z) : option (option string) * Z :=
  match selectURL net w nextHostOrURL with
  | (PickPanic, next) => (None, next)
  | (PickError err, next) => (Some (Some err), next)
  | (PickURL reqURL, next) =>
      match http_NewRequest net (httpMethod w) reqURL with
      | Some err => (Some (Some err), next)
      | None =>
          match hostHeader (headers w) with
          | HostError err => (Some (Some err), next)
          | HostIs _ | HostUnset =>
              (Some (Request (statusCheck w) (mkExchange None doErr status)), next)
          end
      end
  end.

(** A world in which every URL parses, every request can be built and no
    variable is set. *)
Definition plainNet : NetLib :=
  mkNetLib (fun _ => None) (fun u h => (h ++ "|" ++ u)%string) (fun _ _ => None)
           (fun s => s) (fun _ => None).

(* ================================================================= *)
(** * Properties *)

(** ** Machine integers *)

Lemma wrapU64_small (z : Z) : 0 <= z < 2^64 -> wrapU64 z = z.
Proof. intros H. unfold wrapU64. apply Z.mod_small. exact H. Qed.

Lemma wrapU64_range (z : Z) : 0 <= wrapU64 z < 2^64.
Proof. unfold wrapU64. apply Z.mod_pos_bound. lia. Qed.

Lemma wrapU64_add_l (x y : Z) : wrapU64 (wrapU64 x + y) = wrapU64 (x + y).
Proof. unfold wrapU64. apply Zplus_mod_idemp_l. Qed.

Lemma wrapU64_add_r (x y : Z) : wrapU64 (x + wrapU64 y) = wrapU64 (x + y).
Proof. unfold wrapU64. apply Zplus_mod_idemp_r. Qed.

Lemma wrapU64_merge (a c d : Z) :
  wrapU64 (wrapU64 (a + wrapU64 c) + d) = wrapU64 (a + (c + d)).
Proof.
  unfold wrapU64. rewrite Zplus_mod_idemp_l.
  replace (a + c mod 2^64 + d) with (c mod 2^64 + (a + d)) by lia.
  rewrite Zplus_mod_idemp_l. f_equal. lia.
Qed.

Lemma wrap64_small (z : Z) : minInt64 <= z <= maxInt64 -> wrap64 z = z.
Proof.
  unfold wrap64, minInt64, maxInt64. intros H.
  rewrite Z.mod_small by lia. lia.
Qed.

Lemma Time_Sub_range (t u : Time) : minInt64 <= Time_Sub t u <= maxInt64.
Proof. unfold Time_Sub, minInt64, maxInt64. lia. Qed.

(* ================================================================= *)
(** ** [NewBenchmark] *)

Lemma float64_of_Z_prim (z : Z) :
  0 <= z < 2^63 -> float64_of_Z z = PrimFloat.of_uint63 (Uint63.of_Z z).
Proof.
  intros Hz. unfold float64_of_Z.
  rewrite <- (SF2Prim_Prim2SF (PrimFloat.of_uint63 (Uint63.of_Z z))).
  rewrite of_uint63_spec. f_equal. f_equal.
  change (Uint63Axioms.to_Z (Uint63.of_Z z)) with (Uint63.to_Z (Uint63.of_Z z)).
  rewrite Uint63.of_Z_spec. symmetry. apply Z.mod_small. exact Hz.
Qed.

Lemma quotientChecks_all (n : nat) :
  forall first rate,
    quotientChecks n first = true ->
    first <= rate < first + Z.of_nat n ->
    quotientCheck rate = true.
Proof.
  induction n as [|n IH]; intros first rate Hall Hrange; [lia|].
  cbn [quotientChecks] in Hall. apply andb_true_iff in Hall as [Hfirst Hrest].
  destruct (Z.eq_dec rate first) as [->|Hne]; [exact Hfirst|].
  apply (IH (first + 1)); [exact Hrest | lia].
Qed.

Lemma quotientChecks_50000 : quotientChecks (Z.to_nat 50000) 1 = true.
Proof. vm_compute. reflexivity. Qed.

(** Up to 50000 requests a second, the interval of a new benchmark is the
    whole number of nanoseconds in [1s / rate]. *)
Lemma expectedInterval_quotient (rate : Z) :
  1 <= rate <= 50000 ->
  int64_of_float64 (float64_of_Z Second / float64_of_Z rate)%float = Second / rate.
Proof.
  intros Hr.
  rewrite (float64_of_Z_prim Second) by (unfold Second; lia).
  rewrite (float64_of_Z_prim rate) by lia.
  apply Z.eqb_eq.
  apply (quotientChecks_all (Z.to_nat 50000) 1 rate quotientChecks_50000).
  lia.
Qed.

(** C9.  [NewBenchmark] panics on a request rate of zero; for a positive
    rate it returns a benchmark, whose [connections] is 1 when zero was
    asked for and the number asked for otherwise, and whose
    [expectedInterval] is one second divided by the rate: the quotient of
    the two as [float64], converted to a [Duration], which up to 50000
    requests a second is the whole number of nanoseconds in [1s / rate]. *)
Theorem NewBenchmark_checks (rate conns : Z) (dur base : Duration) :
  0 <= rate < 2^64 -> 0 <= conns < 2^64 ->
  (rate = 0 -> NewBenchmark rate conns dur base = None) /\
  (0 < rate ->
   exists b, NewBenchmark rate conns dur base = Some b /\
     connections b = (if conns =? 0 then 1 else conns) /\
     (conns = 0 -> connections b = 1) /\
     0 < connections b /\
     duration b = dur /\ baseLatency b = base /\
     expectedInterval b =
       int64_of_float64 (float64_of_Z Second / float64_of_Z rate)%float /\
     (rate <= 50000 -> expectedInterval b = Second / rate)).
Proof.
  intros Hr Hc. split.
  - intros ->. reflexivity.
  - intros Hpos. unfold NewBenchmark.
    destruct (rate <=? 0) eqn:E; [apply Z.leb_le in E; lia|].
    eexists. split; [reflexivity|]. cbn [connections duration baseLatency expectedInterval].
    split; [reflexivity|]. split; [intros ->; reflexivity|].
    split; [destruct (conns =? 0) eqn:E0; [lia | apply Z.eqb_neq in E0; lia]|].
    split; [reflexivity|]. split; [reflexivity|]. split; [reflexivity|].
    intros Hle. apply expectedInterval_quotient. lia.
Qed.

Lemma NewBenchmark_checks_witness :
  NewBenchmark 0 4 Second 0 = None /\
  exists b, NewBenchmark 100 0 (2 * Second) 0 = Some b /\
            connections b = 1 /\ expectedInterval b = 10 * Millisecond.
Proof.
  split.
  - apply (NewBenchmark_checks 0 4 Second 0); [lia | lia | reflexivity].
  - destruct (NewBenchmark_checks 100 0 (2 * Second) 0) as [_ H]; [lia | lia |].
    destruct H as (b & Hb & _ & Hc & _ & _ & _ & _ & Hi); [lia|].
    exists b. split; [exact Hb|]. split; [apply Hc; reflexivity|].
    rewrite Hi by lia. reflexivity.
Defined.

(* ================================================================= *)
(** ** The choice of the ticker *)

Lemma firstPositive_pos (readings : list Duration) (r : Duration) :
  firstPositive readings = Some r -> 0 < r.
Proof.
  induction readings as [|x rest IH]; cbn; [discriminate|].
  destruct (0 <? x) eqn:E.
  - intros [= <-]. apply Z.ltb_lt. exact E.
  - exact IH.
Qed.

(** The probe never answers more than it started from, nor less than the
    smallest positive reading can be. *)
Lemma detectTrials_bound (n : nat) :
  forall clock best res,
    0 < best -> detectTrials n clock best = Some res -> 0 < res <= best.
Proof.
  induction n as [|n IH]; intros clock best res Hbest; cbn.
  - intros [= <-]. lia.
  - destruct clock as [|readings clock']; [discriminate|].
    destruct (firstPositive readings) as [r|] eqn:Er; [|discriminate].
    apply firstPositive_pos in Er. intros H.
    destruct (r <? best) eqn:E.
    + apply Z.ltb_lt in E. apply IH in H; lia.
    + apply IH in H; lia.
Qed.

Lemma detectOsTimerResolution_bound (clock : list (list Duration)) (timerRes : Duration) :
  detectOsTimerResolution clock = Some timerRes -> 0 < timerRes <= Hour.
Proof. apply detectTrials_bound. reflexivity. Qed.

(** C3.  With the resolution the probe returned, [tickerFunc] runs the
    sleeping ticker exactly when [forceTightTicker] is false and
    [expectedInterval] is at least seven times the resolution; in every
    other case, and whenever [forceTightTicker] is true, it runs the tight
    ticker. *)
Theorem tickerFunc_choice (b : Benchmark) (clock : list (list Duration))
    (force : bool) (timerRes : Duration) (start : Time) (polls : list Poll)
    (events : list SleepEvent) (finish : Duration) :
  detectOsTimerResolution clock = Some timerRes ->
  (chooseTicker b timerRes force = SleepingTicker <->
     force = false /\ 7 * timerRes <= expectedInterval b) /\
  (chooseTicker b timerRes force = TightTicker <->
     ~ (force = false /\ 7 * timerRes <= expectedInterval b)) /\
  (force = true -> chooseTicker b timerRes force = TightTicker) /\
  tickerFunc b clock force start polls events finish =
    match chooseTicker b timerRes force with
    | SleepingTicker =>
        option_map (fun r => (SleepingTicker, fst r, snd r))
                   (sleepingTicker b start events finish)
    | TightTicker =>
        option_map (fun r => (TightTicker, fst r, snd r))
                   (tightTicker b start polls finish)
    end.
Proof.
  intros Hres.
  pose proof (detectOsTimerResolution_bound _ _ Hres) as Hb.
  assert (Hw : wrap64 (7 * timerRes) = 7 * timerRes).
  { apply wrap64_small. unfold Hour, Second, minInt64, maxInt64 in *. lia. }
  unfold tickerFunc, chooseTicker. rewrite Hres, Hw.
  destruct force; cbn [negb andb].
  - split; [|split; [|split]].
    + split; [discriminate | intros [? _]; discriminate].
    + split; [intros _ [? _]; discriminate | reflexivity].
    + reflexivity.
    + reflexivity.
  - destruct (7 * timerRes <=? expectedInterval b) eqn:E.
    + apply Z.leb_le in E. split; [|split; [|split]].
      * split; [intros _; split; [reflexivity | exact E] | reflexivity].
      * split; [discriminate | intros H; exfalso; apply H; split; [reflexivity | exact E]].
      * discriminate.
      * reflexivity.
    + apply Z.leb_gt in E. split; [|split; [|split]].
      * split; [discriminate | intros [_ ?]; lia].
      * split; [intros _ [_ ?]; lia | reflexivity].
      * discriminate.
      * reflexivity.
Qed.

Lemma tickerFunc_choice_witness :
  chooseTicker (benchmarkWithBase 0) 1000 false = SleepingTicker /\
  chooseTicker (benchmarkWithBase 0) 1000 true = TightTicker /\
  chooseTicker (benchmarkWithBase 0) (2 * Millisecond) false = TightTicker.
Proof.
  pose (clock := repeat [0; 1000] 10).
  pose (coarse := repeat [2 * Millisecond] 10).
  destruct (tickerFunc_choice (benchmarkWithBase 0) clock false 1000 0 [] [] 0)
    as (Hs & _); [reflexivity|].
  destruct (tickerFunc_choice (benchmarkWithBase 0) clock true 1000 0 [] [] 0)
    as (_ & _ & Hf & _); [reflexivity|].
  destruct (tickerFunc_choice (benchmarkWithBase 0) coarse false (2 * Millisecond) 0 [] [] 0)
    as (_ & Ht & _); [reflexivity|].
  split; [|split].
  - apply Hs. split; [reflexivity|]. vm_compute. discriminate.
  - apply Hf. reflexivity.
  - apply Ht. intros [_ H]. vm_compute in H. apply H. reflexivity.
Defined.

(* ================================================================= *)
(** ** The tight ticker *)

Lemma tightLoop_app (b : Benchmark) (start : Time) (polls1 : list Poll) :
  forall t0 t polls2,
    tightLoop b start t0 polls1 = (t, false) ->
    tightLoop b start t0 (polls1 ++ polls2) = tightLoop b start t polls2.
Proof.
  induction polls1 as [|q polls1 IH]; intros t0 t polls2; cbn.
  - intros [= <-]. reflexivity.
  - destruct (tightPoll b start t0 q) as [t1 stop].
    destruct stop; [discriminate|]. apply IH.
Qed.






(** A run at 100 ticks a second for 25 ms.  The reading at 26 ms is past
    the duration but less than an interval after the last tick: the loop
    goes on, and it is the tick at 30 ms that is sent and then ends it. *)
Lemma tightTicker_run :
  let b := set_ticks (benchmarkWithBase 0) 0 0 0 in
  let b25 := mkBenchmark (connections b) (requestRate b) (25 * Millisecond) (baseLatency b)
               (expectedInterval b) (successHistogram b) 0 0 0%float 0 0 0 0 0 ∅ in
  option_map (fun r => (elapsed (fst r), timelyTicks (fst r), missedTicks (fst r),
                        tk_lastTick (snd r), tk_out (snd r), tk_closed (snd r)))
    (tightTicker b25 0
       [mkPoll (4 * Millisecond) true; mkPoll (10 * Millisecond) true;
        mkPoll (23 * Millisecond) false; mkPoll (26 * Millisecond) true;
        mkPoll (31 * Millisecond) true; mkPoll (40 * Millisecond) true]
       (31 * Millisecond + 500))
  = Some (31 * Millisecond + 500, 2, 1, 30 * Millisecond,
          [10 * Millisecond; 31 * Millisecond], true).
Proof. vm_compute. reflexivity. Qed.

(* ================================================================= *)
(** ** The workers *)

Lemma late_timely_count (b : Benchmark) (ticks : list TickEvent) :
  lateCount b ticks + timelyCount b ticks = Z.of_nat (length ticks).
Proof.
  unfold lateCount, timelyCount.
  induction ticks as [|ev ticks IH]; [reflexivity|].
  rewrite !filter_cons. destruct (isLate b ev) eqn:E.
  - rewrite decide_True by reflexivity. rewrite decide_False by discriminate.
    cbn [length]. lia.
  - rewrite decide_False by discriminate. rewrite decide_True by reflexivity.
    cbn [length]. lia.
Qed.

Lemma failed_succeeded_count (ticks : list TickEvent) :
  failedCount ticks + succeededCount ticks = Z.of_nat (length ticks).
Proof.
  unfold failedCount, succeededCount.
  induction ticks as [|ev ticks IH]; [reflexivity|].
  rewrite !filter_cons. destruct (ev_err ev) as [e|] eqn:E.
  - rewrite decide_True by (eexists; reflexivity). rewrite decide_False by discriminate.
    cbn [length]. lia.
  - rewrite decide_False by (intros [? ?]; discriminate). rewrite decide_True by reflexivity.
    cbn [length]. lia.
Qed.

Lemma lateCount_app (b : Benchmark) (l1 l2 : list TickEvent) :
  lateCount b (l1 ++ l2) = lateCount b l1 + lateCount b l2.
Proof. unfold lateCount. rewrite filter_app, length_app. lia. Qed.

Lemma timelyCount_app (b : Benchmark) (l1 l2 : list TickEvent) :
  timelyCount b (l1 ++ l2) = timelyCount b l1 + timelyCount b l2.
Proof. unfold timelyCount. rewrite filter_app, length_app. lia. Qed.

Lemma failedCount_app (l1 l2 : list TickEvent) :
  failedCount (l1 ++ l2) = failedCount l1 + failedCount l2.
Proof. unfold failedCount. rewrite filter_app, length_app. lia. Qed.

Lemma succeededCount_app (l1 l2 : list TickEvent) :
  succeededCount (l1 ++ l2) = succeededCount l1 + succeededCount l2.
Proof. unfold succeededCount. rewrite filter_app, length_app. lia. Qed.

Lemma count_nonneg (b : Benchmark) (l : list TickEvent) :
  0 <= lateCount b l /\ 0 <= timelyCount b l /\ 0 <= failedCount l /\ 0 <= succeededCount l.
Proof. unfold lateCount, timelyCount, failedCount, succeededCount. lia. Qed.

Lemma count_singleton (b : Benchmark) (ev : TickEvent) :
  lateCount b [ev] = (if isLate b ev then 1 else 0) /\
  timelyCount b [ev] = (if isLate b ev then 0 else 1) /\
  failedCount [ev] = match ev_err ev with Some _ => 1 | None => 0 end /\
  succeededCount [ev] = match ev_err ev with Some _ => 0 | None => 1 end.
Proof.
  unfold lateCount, timelyCount, failedCount, succeededCount.
  rewrite !filter_cons, !filter_nil.
  destruct (isLate b ev); destruct (ev_err ev); cbn; repeat split.
Qed.

(** The locals of a worker after it has gone through [ticks]: every
    counter is the number of ticks of its kind, as a [uint64], and one
    sample was sent for every tick. *)
Lemma worker_locals (b : Benchmark) (ticks : list TickEvent) :
  let w := fold_left (workerTick b) ticks workerStart in
  w_lateSends w = wrapU64 (lateCount b ticks) /\
  w_timelySends w = wrapU64 (timelyCount b ticks) /\
  w_errorTotal w = wrapU64 (failedCount ticks) /\
  w_successTotal w = wrapU64 (succeededCount ticks) /\
  Z.of_nat (length (w_results w)) = succeededCount ticks /\
  Z.of_nat (length (w_errors w)) = failedCount ticks.
Proof.
  induction ticks as [|ev ticks IH] using rev_ind.
  - cbn. repeat split.
  - cbn zeta in *. rewrite fold_left_app. cbn [fold_left].
    destruct IH as (Hl & Ht & He & Hs & Hr & Hx).
    rewrite lateCount_app, timelyCount_app, failedCount_app, succeededCount_app.
    destruct (count_singleton b ev) as (-> & -> & -> & ->).
    set (w := fold_left (workerTick b) ticks workerStart) in *.
    unfold workerTick. fold (isLate b ev).
    destruct (isLate b ev) eqn:EL; destruct (ev_err ev) as [e|] eqn:EE; cbn;
      rewrite ?Hl, ?Ht, ?He, ?Hs, ?wrapU64_add_l, ?length_app, ?Z.add_0_r;
      cbn [length]; repeat split; try reflexivity; try lia.
Qed.

Lemma count_ext (b b' : Benchmark) (l : list TickEvent) :
  expectedInterval b' = expectedInterval b ->
  lateCount b' l = lateCount b l /\ timelyCount b' l = timelyCount b l.
Proof.
  intros H. unfold lateCount, timelyCount, isLate. rewrite H. split; reflexivity.
Qed.

(** The benchmark after all the workers have merged their counters, and
    the samples they sent. *)
Lemma workers_counters (ws : list (Requester * list TickEvent)) :
  forall b : Benchmark,
    countersU64 b ->
    Forall (fun w => Setup (fst w) = None) ws ->
    exists b' rs es,
      workers b ws = Some (b', rs, es) /\
      lateSends b' = wrapU64 (lateSends b + lateCount b (allTicks ws)) /\
      timelySends b' = wrapU64 (timelySends b + timelyCount b (allTicks ws)) /\
      errorTotal b' = wrapU64 (errorTotal b + failedCount (allTicks ws)) /\
      successTotal b' = wrapU64 (successTotal b + succeededCount (allTicks ws)) /\
      Z.of_nat (length rs) = succeededCount (allTicks ws) /\
      Z.of_nat (length es) = failedCount (allTicks ws).
Proof.
  induction ws as [|[requester ticks] ws IH]; intros b Hb Hsetup.
  - exists b, [], []. destruct Hb as (? & ? & ? & ?).
    unfold allTicks, lateCount, timelyCount, failedCount, succeededCount.
    cbn. rewrite !Z.add_0_r, !wrapU64_small by assumption.
    repeat split.
  - apply Forall_cons in Hsetup as [Hs Hws]. cbn [fst] in Hs.
    cbn [workers]. unfold worker. rewrite Hs.
    destruct (worker_locals b ticks) as (Hl & Ht & He & Hsu & Hr & Hx).
    set (w := fold_left (workerTick b) ticks workerStart) in *.
    set (b1 := atomic_add_sends b (w_lateSends w) (w_timelySends w)
                 (w_errorTotal w) (w_successTotal w)).
    assert (Hb1 : countersU64 b1).
    { unfold countersU64, b1. cbn. repeat split; apply wrapU64_range. }
    destruct (IH b1 Hb1 Hws) as (b' & rs & es & -> & Hl' & Ht' & He' & Hs' & Hr' & Hx').
    exists b', (w_results w ++ rs), (w_errors w ++ es).
    destruct (count_ext b b1 (allTicks ws)) as [El Et]; [reflexivity|].
    rewrite El in Hl'. rewrite Et in Ht'.
    assert (Ea : allTicks ((requester, ticks) :: ws) = ticks ++ allTicks ws) by reflexivity.
    rewrite Ea, lateCount_app, timelyCount_app, failedCount_app, succeededCount_app,
      !length_app, !Nat2Z.inj_add.
    rewrite Hl', Ht', He', Hs', Hr', Hx', Hr, Hx. unfold b1. cbn.
    rewrite Hl, Ht, He, Hsu.
    rewrite !wrapU64_merge.
    repeat split.
Qed.

Lemma NewBenchmark_counters (rate conns : Z) (dur base : Duration) (b : Benchmark) :
  NewBenchmark rate conns dur base = Some b ->
  lateSends b = 0 /\ timelySends b = 0 /\ errorTotal b = 0 /\ successTotal b = 0.
Proof.
  unfold NewBenchmark. destruct (rate <=? 0); [discriminate|].
  intros [= <-]. cbn. repeat split.
Qed.

(** One tick received: one of the two send counters goes up by one, and
    one sample is sent, a result or an error. *)
Lemma workerTick_one_sample (b : Benchmark) (w : WorkerLocals) (ev : TickEvent) :
  (w_lateSends (workerTick b w ev) = wrapU64 (w_lateSends w + 1) /\
   w_timelySends (workerTick b w ev) = w_timelySends w /\
   expectedInterval b <= Time_Sub (ev_before ev) (ev_tick ev)
   \/
   w_timelySends (workerTick b w ev) = wrapU64 (w_timelySends w + 1) /\
   w_lateSends (workerTick b w ev) = w_lateSends w /\
   Time_Sub (ev_before ev) (ev_tick ev) < expectedInterval b) /\
  (length (w_results (workerTick b w ev)) + length (w_errors (workerTick b w ev))
   = S (length (w_results w) + length (w_errors w)))%nat.
Proof.
  unfold workerTick.
  destruct (expectedInterval b <=? Time_Sub (ev_before ev) (ev_tick ev)) eqn:E;
    [apply Z.leb_le in E | apply Z.leb_gt in E];
    destruct (ev_err ev); cbn; rewrite length_app; cbn [length];
    (split; [tauto | lia]).
Qed.

(** C4.  In a run of a new benchmark whose workers all get through
    [Setup], each worker sends one sample for every tick it receives, a
    success or an error, and counts the tick once, as late when
    [before - tick >= expectedInterval] and as timely otherwise.  Once the
    workers have merged their counters, [timelySends + lateSends] and
    [successTotal + errorTotal] both equal the number of ticks received,
    which is the number of samples sent (fewer than [2^64] ticks, so that
    the [uint64] counters hold the numbers). *)
Theorem sends_equal_samples (rate conns : Z) (dur base : Duration) (b : Benchmark)
    (ws : list (Requester * list TickEvent)) :
  NewBenchmark rate conns dur base = Some b ->
  Forall (fun w => Setup (fst w) = None) ws ->
  totalTicks ws < 2^64 ->
  exists b' rs es,
    workers b ws = Some (b', rs, es) /\
    timelySends b' + lateSends b' = totalTicks ws /\
    successTotal b' + errorTotal b' = totalTicks ws /\
    Z.of_nat (length rs) + Z.of_nat (length es) = totalTicks ws /\
    successTotal b' = Z.of_nat (length rs) /\
    errorTotal b' = Z.of_nat (length es) /\
    lateSends b' =
      Z.of_nat (length (filter
        (fun ev => expectedInterval b <= Time_Sub (ev_before ev) (ev_tick ev))
        (allTicks ws))) /\
    timelySends b' =
      Z.of_nat (length (filter
        (fun ev => Time_Sub (ev_before ev) (ev_tick ev) < expectedInterval b)
        (allTicks ws))).
Proof.
  intros Hnew Hsetup Htotal.
  destruct (NewBenchmark_counters _ _ _ _ _ Hnew) as (Z1 & Z2 & Z3 & Z4).
  assert (Hb : countersU64 b).
  { unfold countersU64. rewrite Z1, Z2, Z3, Z4. lia. }
  destruct (workers_counters ws b Hb Hsetup)
    as (b' & rs & es & Hw & Hl & Ht & He & Hs & Hr & Hx).
  exists b', rs, es. split; [exact Hw|].
  rewrite Z1 in Hl. rewrite Z2 in Ht. rewrite Z3 in He. rewrite Z4 in Hs.
  cbn [Z.add] in *.
  pose proof (late_timely_count b (allTicks ws)) as Hlt.
  pose proof (failed_succeeded_count (allTicks ws)) as Hfs.
  pose proof (count_nonneg b (allTicks ws)) as (N1 & N2 & N3 & N4).
  unfold totalTicks in *. fold (allTicks ws) in *.
  rewrite wrapU64_small in Hl, Ht, He, Hs by lia.
  assert (Elate : lateCount b (allTicks ws) =
    Z.of_nat (length (filter
      (fun ev => expectedInterval b <= Time_Sub (ev_before ev) (ev_tick ev))
      (allTicks ws)))).
  { unfold lateCount. f_equal. f_equal. apply list_filter_iff. intros ev.
    unfold isLate. split; intros H; [apply Z.leb_le | apply Z.leb_le in H]; exact H. }
  assert (Etimely : timelyCount b (allTicks ws) =
    Z.of_nat (length (filter
      (fun ev => Time_Sub (ev_before ev) (ev_tick ev) < expectedInterval b)
      (allTicks ws)))).
  { unfold timelyCount. f_equal. f_equal. apply list_filter_iff. intros ev.
    unfold isLate. split; intros H; [apply Z.leb_gt | apply Z.leb_gt in H]; exact H. }
  rewrite <- Elate, <- Etimely. repeat split; lia.
Qed.

Lemma sends_equal_samples_witness :
  exists b' rs es,
    workers (benchmarkWithBase 0)
      [(plainRequester,
        [mkTickEvent 0 1000 None 5000000;
         mkTickEvent (10 * Millisecond) (25 * Millisecond) (Some "connection refused") 70000]);
       (plainRequester, [mkTickEvent (20 * Millisecond) (20 * Millisecond) None (-3)])]
    = Some (b', rs, es) /\
    timelySends b' + lateSends b' = 3 /\
    successTotal b' + errorTotal b' = 3 /\
    Z.of_nat (length rs) + Z.of_nat (length es) = 3.
Proof.
  destruct (sends_equal_samples 100 1 (2 * Second) 0 (benchmarkWithBase 0)
    [(plainRequester,
      [mkTickEvent 0 1000 None 5000000;
       mkTickEvent (10 * Millisecond) (25 * Millisecond) (Some "connection refused") 70000]);
     (plainRequester, [mkTickEvent (20 * Millisecond) (20 * Millisecond) None (-3)])])
    as (b' & rs & es & Hw & H1 & H2 & H3 & _).
  - vm_compute. reflexivity.
  - repeat constructor.
  - vm_compute. reflexivity.
  - exists b', rs, es. repeat split; assumption.
Defined.

(* ================================================================= *)
(** ** The collector *)

(** C1.  A success whose measured latency is [L] nanoseconds, with a base
    latency [B >= 0]: the worker sends [max(0, L)], and the collector hands
    [max(0, L) - B] to the histogram.  When the histogram takes the value,
    that is the value recorded and the count of the histogram goes up by
    one; when it refuses, the collector panics.  The value is
    [max(0, L - B)] whenever [B <= max(0, L)]. *)
Theorem recorded_latency (lib : HdrLib) (b : Benchmark) (w : WorkerLocals)
    (ev : TickEvent) (c : Collector) :
  ev_err ev = None ->
  minInt64 <= ev_since ev <= maxInt64 ->
  0 <= baseLatency (col_b c) <= maxInt64 ->
  w_results (workerTick b w ev) = w_results w ++ [Z.max 0 (ev_since ev)] /\
  (recordable lib (successHistogram (col_b c))
     (Z.max 0 (ev_since ev) - baseLatency (col_b c)) = true ->
   exists c', collectSample lib c (Z.max 0 (ev_since ev)) = Some c' /\
     recorded (successHistogram (col_b c')) =
       (Z.max 0 (ev_since ev) - baseLatency (col_b c))
         :: recorded (successHistogram (col_b c)) /\
     TotalCount (successHistogram (col_b c')) =
       TotalCount (successHistogram (col_b c)) + 1) /\
  (recordable lib (successHistogram (col_b c))
     (Z.max 0 (ev_since ev) - baseLatency (col_b c)) = false ->
   collectSample lib c (Z.max 0 (ev_since ev)) = None) /\
  (baseLatency (col_b c) <= Z.max 0 (ev_since ev) ->
   Z.max 0 (ev_since ev) - baseLatency (col_b c) =
     Z.max 0 (ev_since ev - baseLatency (col_b c))).
Proof.
  intros Herr HL HB.
  assert (Hw : wrap64 (Z.max 0 (ev_since ev) - Nanoseconds (baseLatency (col_b c)))
               = Z.max 0 (ev_since ev) - baseLatency (col_b c)).
  { apply wrap64_small. unfold Nanoseconds, minInt64, maxInt64 in *. lia. }
  split; [|split; [|split]].
  - unfold workerTick. rewrite Herr. unfold Nanoseconds.
    destruct (ev_since ev <? 0) eqn:E; cbn.
    + apply Z.ltb_lt in E. rewrite Z.max_l by lia. reflexivity.
    + apply Z.ltb_ge in E. rewrite Z.max_r by lia. reflexivity.
  - intros Hrec. unfold collectSample, RecordValue. rewrite Hw, Hrec.
    eexists. split; [reflexivity|]. cbn. split; [reflexivity|].
    unfold TotalCount. cbn [recorded length]. lia.
  - intros Hrec. unfold collectSample, RecordValue. rewrite Hw, Hrec. reflexivity.
  - intros Hle. lia.
Qed.

Lemma recorded_latency_witness :
  exists c',
    collectSample rangeLib (collectorStart (benchmarkWithBase 2000000)) 5000000 = Some c' /\
    recorded (successHistogram (col_b c')) = [3000000] /\
    TotalCount (successHistogram (col_b c')) = 1.
Proof.
  destruct (recorded_latency rangeLib (benchmarkWithBase 2000000) workerStart
              (mkTickEvent 0 0 None 5000000)
              (collectorStart (benchmarkWithBase 2000000)))
    as (_ & H & _).
  - reflexivity.
  - vm_compute. split; discriminate.
  - vm_compute. split; discriminate.
  - destruct H as (c' & Hc & Hr & Ht); [vm_compute; reflexivity|].
    exists c'. split; [exact Hc|]. split; [exact Hr | exact Ht].
Defined.

(** With a base latency of 10 ns, a success measured at 5 ns (or at 0 ns)
    makes the collector hand -5 (or -10) to the histogram, not
    [max(0, L - B) = 0]: whatever the histogram library, either that
    negative value is recorded or the collector panics. *)
Lemma recorded_latency_not_clamped :
  Z.max 0 (5 - 10) = 0 /\ Z.max 0 (0 - 10) = 0 /\
  w_results (workerTick (benchmarkWithBase 10) workerStart (mkTickEvent 0 0 None 5)) = [5] /\
  w_results (workerTick (benchmarkWithBase 10) workerStart (mkTickEvent 0 0 None 0)) = [0] /\
  (forall lib : HdrLib,
     match collectSample lib (collectorStart (benchmarkWithBase 10)) 5 with
     | Some c' => recorded (successHistogram (col_b c')) = [-5]
     | None => recordable lib (successHistogram (benchmarkWithBase 10)) (-5) = false
     end) /\
  (forall lib : HdrLib,
     match collectSample lib (collectorStart (benchmarkWithBase 10)) 0 with
     | Some c' => recorded (successHistogram (col_b c')) = [-10]
     | None => recordable lib (successHistogram (benchmarkWithBase 10)) (-10) = false
     end) /\
  collectSample rangeLib (collectorStart (benchmarkWithBase 10)) 5 = None /\
  collectSample rangeLib (collectorStart (benchmarkWithBase 10)) 0 = None.
Proof.
  split; [reflexivity|]. split; [reflexivity|].
  split; [vm_compute; reflexivity|]. split; [vm_compute; reflexivity|].
  split; [|split; [|split]].
  - intros lib. unfold collectSample, RecordValue.
    change (wrap64 (5 - Nanoseconds (baseLatency (col_b (collectorStart (benchmarkWithBase 10))))))
      with (-5).
    change (successHistogram (col_b (collectorStart (benchmarkWithBase 10))))
      with (successHistogram (benchmarkWithBase 10)).
    destruct (recordable lib (successHistogram (benchmarkWithBase 10)) (-5)); reflexivity.
  - intros lib. unfold collectSample, RecordValue.
    change (wrap64 (0 - Nanoseconds (baseLatency (col_b (collectorStart (benchmarkWithBase 10))))))
      with (-10).
    change (successHistogram (col_b (collectorStart (benchmarkWithBase 10))))
      with (successHistogram (benchmarkWithBase 10)).
    destruct (recordable lib (successHistogram (benchmarkWithBase 10)) (-10)); reflexivity.
  - vm_compute. reflexivity.
  - vm_compute. reflexivity.
Qed.

(** C2 (what the code does).  Once [stopCollector] is closed, the
    [select] of [collectorFunc] may take the case of [doneCh] whatever is
    still buffered in [results] and [errors]: the collector returns and
    the samples stay in the channels.  So in a run of two workers with one
    successful request each, where the first sample has been collected and
    the second is still in the buffer when the workers are done, the
    collector can return with one value in the histogram while
    [successTotal] is 2. *)
Theorem collector_can_return_with_buffered_sample :
  (forall (lib : HdrLib) (c : Collector) (rs : list Z) (es : list string),
     collectorFunc lib (Collecting c (mkChans rs es true))
                       (CollectorReturned (collectDone c) (mkChans rs es true)) /\
     successHistogram (collectDone c) = successHistogram (col_b c) /\
     errors (collectDone c) = errors (col_b c)) /\
  exists b1 b',
    workers (benchmarkWithBase 0)
      [(plainRequester, [mkTickEvent 0 1000 None 5000000]);
       (plainRequester, [mkTickEvent (10 * Millisecond) (10 * Millisecond) None 7000000])]
      = Some (b1, [5000000; 7000000], []) /\
    successTotal b1 = 2 /\
    collectorFunc rangeLib
      (Collecting (collectorStart b1) (mkChans [5000000; 7000000] [] true))
      (CollectorReturned b' (mkChans [7000000] [] true)) /\
    successTotal b' = 2 /\
    TotalCount (successHistogram b') = 1.
Proof.
  split.
  - intros lib c rs es. split; [apply rtc_once, step_done|]. split; reflexivity.
  - set (b1 := atomic_add_sends (atomic_add_sends (benchmarkWithBase 0) 0 1 0 1) 0 1 0 1).
    destruct (collectSample rangeLib (collectorStart b1) 5000000) as [c1|] eqn:E1;
      [|vm_compute in E1; discriminate].
    exists b1, (collectDone c1).
    split; [vm_compute; reflexivity|].
    split; [vm_compute; reflexivity|].
    split.
    + eapply rtc_l; [apply step_sample; exact E1|].
      apply rtc_once, step_done.
    + assert (Hc1 : Some c1 = collectSample rangeLib (collectorStart b1) 5000000)
        by (symmetry; exact E1).
      vm_compute in Hc1. injection Hc1 as ->.
      split; vm_compute; reflexivity.
Qed.

(** When the collector does take every sample before it returns, none is
    lost: the histogram holds one value for each sample it accepted. *)
Lemma collectSample_count (lib : HdrLib) (c c' : Collector) (sample : Z) :
  collectSample lib c sample = Some c' ->
  TotalCount (successHistogram (col_b c')) = TotalCount (successHistogram (col_b c)) + 1.
Proof.
  unfold collectSample, RecordValue.
  destruct (recordable lib _ _); [|discriminate].
  intros [= <-]. unfold TotalCount. cbn [col_b set_successHistogram successHistogram recorded length].
  lia.
Qed.

(* ================================================================= *)
(** ** The error keys *)

Lemma errorKey_examples :
  errorKey "Expected 200-response, but got 503" = "503"%string /\
  errorKey "connection refused" = "connection refused"%string /\
  errorKey "expected 200-response, but got 503" = "expected 200-response, but got 503"%string /\
  errorKey "Expected 200-response, but got " = "Expected 200-response, but got "%string /\
  errorKey "GET /a: Expected 200-response, but got 404 (retry 3)" = "404"%string.
Proof. vm_compute. repeat split. Qed.

(** C5 (what the code does).  Two error texts that carry the same status
    code are both filed under ["503"], but the second assignment replaces
    the first: the bucket holds the count of the text visited last, in
    either order of the visit, and the other count is gone. *)
Theorem formatErrors_keeps_last_count :
  MapRange (<["upstream: Expected 200-response, but got 503"%string := 3]>
              {["Expected 200-response, but got 503"%string := 2]})
           [("Expected 200-response, but got 503"%string, 2);
            ("upstream: Expected 200-response, but got 503"%string, 3)] /\
  MapRange (<["upstream: Expected 200-response, but got 503"%string := 3]>
              {["Expected 200-response, but got 503"%string := 2]})
           [("upstream: Expected 200-response, but got 503"%string, 3);
            ("Expected 200-response, but got 503"%string, 2)] /\
  formatErrors [("Expected 200-response, but got 503"%string, 2);
                ("upstream: Expected 200-response, but got 503"%string, 3)]
    = {["503"%string := 3]} /\
  formatErrors [("upstream: Expected 200-response, but got 503"%string, 3);
                ("Expected 200-response, but got 503"%string, 2)]
    = {["503"%string := 2]}.
Proof.
  assert (Hp : MapRange (<["upstream: Expected 200-response, but got 503"%string := 3]>
              {["Expected 200-response, but got 503"%string := 2]})
           [("upstream: Expected 200-response, but got 503"%string, 3);
            ("Expected 200-response, but got 503"%string, 2)]).
  { unfold MapRange. rewrite map_to_list_insert.
    - rewrite map_to_list_singleton. reflexivity.
    - apply lookup_singleton_ne. discriminate. }
  split; [|split; [exact Hp|]].
  - unfold MapRange in *. rewrite <- Hp. apply perm_swap.
  - unfold formatErrors. cbn [fold_left fst snd].
    change (errorKey "Expected 200-response, but got 503") with "503"%string.
    change (errorKey "upstream: Expected 200-response, but got 503") with "503"%string.
    split.
    + rewrite insert_insert_eq. reflexivity.
    + rewrite insert_insert_eq. reflexivity.
Qed.

Lemma formatErrors_snoc (order : list (string * Z)) (entry : string * Z) :
  formatErrors (order ++ [entry]) =
  <[errorKey (fst entry) := snd entry]> (formatErrors order).
Proof. unfold formatErrors. rewrite fold_left_app. reflexivity. Qed.

(** An error text that shares its key with no other text of the map keeps
    its count, under that key. *)
Lemma formatErrors_lookup_unshared (order : list (string * Z)) (text : string) (count : Z) :
  NoDup (map fst order) ->
  (text, count) ∈ order ->
  (forall text' count', (text', count') ∈ order -> text' <> text ->
                        errorKey text' <> errorKey text) ->
  formatErrors order !! errorKey text = Some count.
Proof.
  induction order as [|[t c] order IH] using rev_ind; intros Hnd Hin Hkeys.
  - apply elem_of_nil in Hin. contradiction.
  - rewrite formatErrors_snoc. cbn [fst snd].
    rewrite map_app in Hnd. cbn [map fst] in Hnd.
    apply NoDup_app in Hnd as (Hnd1 & Hdisj & _).
    apply elem_of_app in Hin as [Hin|Hin].
    + assert (Hne : t <> text).
      { intros ->. apply (Hdisj text).
        - apply list_elem_of_fmap. exists (text, count). split; [reflexivity | exact Hin].
        - apply list_elem_of_singleton. reflexivity. }
      rewrite lookup_insert_ne.
      * apply IH; [exact Hnd1 | exact Hin |].
        intros text' count' Hin' Hne'. apply (Hkeys text' count'); [|exact Hne'].
        apply elem_of_app. left. exact Hin'.
      * apply (Hkeys t c); [|exact Hne].
        apply elem_of_app. right. apply list_elem_of_singleton. reflexivity.
    + apply list_elem_of_singleton in Hin. injection Hin as -> ->.
      apply lookup_insert_eq.
Qed.

Lemma takeDigits_head (s : string) (c : ascii) (d : string) :
  takeDigits s = String c d -> isDigit c = true.
Proof.
  destruct s as [|a s]; cbn; [discriminate|].
  destruct (isDigit a) eqn:E; [|discriminate].
  intros [= <- _]. exact E.
Qed.

(** What [FindStringSubmatch] returns: nothing, or the match and a group
    that starts with a digit. *)
Lemma FindStringSubmatch_shape (s : string) :
  FindStringSubmatch s = [] \/
  exists c d, FindStringSubmatch s = [(errorCodeLiteral ++ String c d)%string; String c d] /\
              isDigit c = true.
Proof.
  induction s as [|a s IH].
  - left. reflexivity.
  - cbn [FindStringSubmatch].
    destruct (matchHere (String a s)) as [m|] eqn:Em; [|exact IH].
    right. unfold matchHere in Em.
    destruct (stripPrefix errorCodeLiteral (String a s)) as [rest|]; [|discriminate].
    destruct (takeDigits rest) as [|c d] eqn:Ed; [discriminate|].
    injection Em as <-. exists c, d. split; [reflexivity|].
    apply (takeDigits_head rest c d Ed).
Qed.

(** A key is the text itself or starts with a digit. *)
Lemma errorKey_shape (text : string) :
  errorKey text = text \/ exists c d, errorKey text = String c d /\ isDigit c = true.
Proof.
  unfold errorKey.
  destruct (FindStringSubmatch_shape text) as [-> | (c & d & -> & Hc)].
  - left. reflexivity.
  - right. exists c, d. split; [reflexivity | exact Hc].
Qed.

Lemma matchHere_head (s : string) (m : list string) :
  matchHere s = Some m -> exists s', s = String "E" s'.
Proof.
  unfold matchHere, errorCodeLiteral. destruct s as [|a s]; cbn [stripPrefix]; [discriminate|].
  destruct (Ascii.eqb "E" a) eqn:E; [|discriminate].
  apply Ascii.eqb_eq in E. subst a. intros _. exists s. reflexivity.
Qed.

(** A text without a capital E holds no match. *)
Lemma FindStringSubmatch_noCapitalE (s : string) :
  noCapitalE s = true -> FindStringSubmatch s = [].
Proof.
  induction s as [|a s IH]; [reflexivity|].
  cbn [noCapitalE FindStringSubmatch]. intros H.
  apply andb_true_iff in H as [Ha Hs].
  destruct (matchHere (String a s)) as [m|] eqn:Em.
  - apply matchHere_head in Em as [s' [= -> _]]. discriminate.
  - apply IH. exact Hs.
Qed.

Lemma append_String (a : ascii) (s1 s2 : string) :
  (String a s1 ++ s2)%string = String a (s1 ++ s2)%string.
Proof. reflexivity. Qed.

Lemma append_empty (s : string) : (EmptyString ++ s)%string = s.
Proof. reflexivity. Qed.

Lemma noCapitalE_app (s1 s2 : string) :
  noCapitalE (s1 ++ s2) = noCapitalE s1 && noCapitalE s2.
Proof.
  induction s1 as [|a s1 IH]; [reflexivity|].
  rewrite append_String. cbn [noCapitalE]. rewrite IH. apply andb_assoc.
Qed.

Lemma isDigit_not_E (c : ascii) : isDigit c = true -> Ascii.eqb c "E" = false.
Proof.
  destruct c as [[] [] [] [] [] [] [] []]; cbn; intros H; try reflexivity; discriminate.
Qed.

Lemma allDigits_noCapitalE (s : string) : allDigits s = true -> noCapitalE s = true.
Proof.
  induction s as [|a s IH]; [reflexivity|].
  cbn. intros H. apply andb_true_iff in H as [Ha Hs].
  rewrite (isDigit_not_E a Ha), (IH Hs). reflexivity.
Qed.

Lemma decimalText_noCapitalE (s : string) : decimalText s = true -> noCapitalE s = true.
Proof.
  destruct s as [|a s]; [discriminate|].
  cbn. intros H. apply andb_true_iff in H as [Ha Hs].
  rewrite (allDigits_noCapitalE s Hs), andb_true_r.
  apply orb_true_iff in Ha as [Ha|Ha].
  - rewrite (isDigit_not_E a Ha). reflexivity.
  - apply Ascii.eqb_eq in Ha. subst a. reflexivity.
Qed.

Lemma string_of_uint_allDigits (d : Decimal.uint) :
  allDigits (NilEmpty.string_of_uint d) = true.
Proof. induction d; cbn; try reflexivity; exact IHd. Qed.

(** The decimal rendering of an integer is digits, after a minus sign or
    not. *)
Lemma itoa_decimalText (z : Z) : decimalText (itoa z) = true.
Proof.
  unfold itoa. destruct (Z.to_int z) as [d|d]; cbn.
  - destruct d; cbn; try reflexivity; apply string_of_uint_allDigits.
  - destruct d; cbn; try reflexivity; apply string_of_uint_allDigits.
Qed.

(** After ["Expected "], the pattern wants ["200-"]; a decimal number
    followed by a space never reads so. *)
Lemma stripPrefix_decimal (x w : string) :
  decimalText x = true ->
  stripPrefix "200-response, but got " (x ++ String " " w) = None.
Proof.
  intros Hx.
  destruct x as [|c1 x]; [discriminate|].
  cbn in Hx. apply andb_true_iff in Hx as [_ Hx].
  rewrite ?append_String, ?append_empty; cbn [stripPrefix]. destruct (Ascii.eqb "2" c1); [|reflexivity].
  destruct x as [|c2 x]; [reflexivity|].
  cbn in Hx. apply andb_true_iff in Hx as [_ Hx].
  rewrite ?append_String, ?append_empty; cbn [stripPrefix]. destruct (Ascii.eqb "0" c2); [|reflexivity].
  destruct x as [|c3 x]; [reflexivity|].
  cbn in Hx. apply andb_true_iff in Hx as [_ Hx].
  rewrite ?append_String, ?append_empty; cbn [stripPrefix]. destruct (Ascii.eqb "0" c3); [|reflexivity].
  destruct x as [|c4 x]; [reflexivity|].
  cbn in Hx. apply andb_true_iff in Hx as [H4 _].
  rewrite ?append_String, ?append_empty; cbn [stripPrefix]. destruct (Ascii.eqb "-" c4) eqn:E; [|reflexivity].
  apply Ascii.eqb_eq in E. subst c4. discriminate.
Qed.

(** The text of a status error of [webRequester] holds no match. *)
Lemma statusError_no_match (expected actual : Z) :
  FindStringSubmatch (statusError expected actual) = [].
Proof.
  unfold statusError.
  change ("Expected " ++ itoa expected ++ " got " ++ itoa actual)%string
    with (String "E" ("xpected " ++ itoa expected ++ String " " ("got " ++ itoa actual)))%string.
  cbn [FindStringSubmatch].
  assert (Hm : matchHere (String "E" ("xpected " ++ itoa expected
                 ++ String " " ("got " ++ itoa actual)))%string = None).
  { unfold matchHere.
    change (stripPrefix errorCodeLiteral
              (String "E" ("xpected " ++ itoa expected ++ String " " ("got " ++ itoa actual)))%string)
      with (stripPrefix "200-response, but got "
              (itoa expected ++ String " " ("got " ++ itoa actual))%string).
    rewrite stripPrefix_decimal by apply itoa_decimalText. reflexivity. }
  rewrite Hm. apply FindStringSubmatch_noCapitalE.
  rewrite noCapitalE_app, noCapitalE_app.
  rewrite (decimalText_noCapitalE _ (itoa_decimalText expected)).
  cbn [noCapitalE]. rewrite (noCapitalE_app "got " (itoa actual)).
  rewrite (decimalText_noCapitalE _ (itoa_decimalText actual)).
  reflexivity.
Qed.

Lemma MapRange_NoDup (m : gmap string Z) (order : list (string * Z)) :
  MapRange m order -> NoDup (map fst order).
Proof.
  unfold MapRange. intros H.
  apply (NoDup_Permutation_proper _ _ (fmap_Permutation fst _ _ H)).
  apply NoDup_fst_map_to_list.
Qed.

Lemma MapRange_elem (m : gmap string Z) (order : list (string * Z)) (k : string) (v : Z) :
  MapRange m order -> ((k, v) ∈ order <-> m !! k = Some v).
Proof.
  unfold MapRange. intros H. rewrite H. apply elem_of_map_to_list.
Qed.

(** C10.  When the status of the response is not the expected one,
    [webRequester.Request] returns the text ["Expected <expected> got
    <actual>"].  The pattern of [summarize] matches nowhere in such a
    text, so the text is its own key, not the status code; and in the
    summary of any run its count is filed under the text as it is. *)
Theorem status_errors_keep_their_text (w : webRequester) (x : Exchange) (code : Z)
    (b : Benchmark) (order : list (string * Z)) (count : Z) (outputJson : bool) :
  ex_early x = None -> ex_err x = None -> ex_status x = Some code ->
  code <> expectedReturnCode w ->
  MapRange (errors b) order ->
  errors b !! statusError (expectedReturnCode w) code = Some count ->
  Request w x = Some (statusError (expectedReturnCode w) code) /\
  FindStringSubmatch (statusError (expectedReturnCode w) code) = [] /\
  errorKey (statusError (expectedReturnCode w) code) =
    statusError (expectedReturnCode w) code /\
  errorKey (statusError (expectedReturnCode w) code) <> itoa code /\
  Errors (summarize b order outputJson) !! statusError (expectedReturnCode w) code
    = Some count.
Proof.
  intros Hearly Herr Hstatus Hcode Hrange Hcount.
  set (text := statusError (expectedReturnCode w) code) in *.
  assert (Hno : FindStringSubmatch text = []) by apply statusError_no_match.
  assert (Hkey : errorKey text = text).
  { unfold errorKey. rewrite Hno. reflexivity. }
  assert (HE : exists rest, text = String "E" rest).
  { eexists. unfold text, statusError. reflexivity. }
  destruct HE as [rest Hrest].
  split; [|split; [exact Hno | split; [exact Hkey | split]]].
  - unfold Request. rewrite Hearly, Herr, Hstatus.
    destruct (code =? expectedReturnCode w)%Z eqn:E; [|reflexivity].
    apply Z.eqb_eq in E. contradiction.
  - rewrite Hkey, Hrest. intros Heq.
    pose proof (decimalText_noCapitalE _ (itoa_decimalText code)) as Hd.
    rewrite <- Heq in Hd. discriminate.
  - cbn [summarize Errors]. rewrite <- Hkey.
    apply formatErrors_lookup_unshared.
    + apply (MapRange_NoDup _ _ Hrange).
    + apply (MapRange_elem _ _ _ _ Hrange). exact Hcount.
    + intros text' count' _ Hne. rewrite Hkey.
      destruct (errorKey_shape text') as [-> | (c & d & -> & Hc)]; [exact Hne|].
      rewrite Hrest. intros [= -> _]. discriminate.
Qed.

Lemma status_errors_keep_their_text_witness :
  Request (mkWebRequester 200) (mkExchange None None (Some 503))
    = Some "Expected 200 got 503"%string /\
  errorKey "Expected 200 got 503" = "Expected 200 got 503"%string /\
  Errors (summarize (set_errors (benchmarkWithBase 0) {["Expected 200 got 503"%string := 4]})
            [("Expected 200 got 503"%string, 4)] false)
    !! "Expected 200 got 503"%string = Some 4.
Proof.
  destruct (status_errors_keep_their_text (mkWebRequester 200)
              (mkExchange None None (Some 503)) 503
              (set_errors (benchmarkWithBase 0) {["Expected 200 got 503"%string := 4]})
              [("Expected 200 got 503"%string, 4)] 4 false)
    as (H1 & _ & H3 & _ & H5).
  - reflexivity.
  - reflexivity.
  - reflexivity.
  - discriminate.
  - unfold MapRange. cbn [errors set_errors]. rewrite map_to_list_singleton. reflexivity.
  - cbn [errors set_errors]. apply lookup_singleton_eq.
  - split; [exact H1 | split; [exact H3 | exact H5]].
Defined.

(* ================================================================= *)
(** ** The error table *)

Lemma errorList_elem (order : list (string * Z)) (code : string) (count : Z) :
  mkError code count ∈ errorList order <-> (code, count) ∈ order.
Proof.
  unfold errorList. rewrite list_elem_of_fmap. split.
  - intros ([k v] & [= -> ->] & Hin). exact Hin.
  - intros Hin. exists (code, count). split; [reflexivity | exact Hin].
Qed.

(** C6 (as the code has it).  The rows of the error table are the buckets
    of the summary, each once, in descending order of their counts. *)
Theorem errorRows_descending (s : Summary) (el : ErrorList) :
  errorRows s el ->
  (forall (i j : nat) (a c : Error),
     (i < j)%nat -> el !! i = Some a -> el !! j = Some c -> Count c <= Count a) /\
  (forall code count, mkError code count ∈ el <-> Errors s !! code = Some count) /\
  length el = size (Errors s).
Proof.
  intros (order & Hrange & Hperm & Hsorted).
  split; [|split].
  - intros i j a c Hij Ha Hc.
    assert (Hj : (j < length el)%nat) by (apply lookup_lt_Some in Hc; exact Hc).
    specialize (Hsorted i j (conj Hij Hj)).
    unfold Reverse_Less, Less in Hsorted. rewrite Ha, Hc in Hsorted.
    apply Z.ltb_ge in Hsorted. exact Hsorted.
  - intros code count. rewrite <- Hperm, errorList_elem.
    apply (MapRange_elem _ _ _ _ Hrange).
  - rewrite <- Hperm. unfold errorList. rewrite length_map.
    unfold MapRange in Hrange. rewrite Hrange. apply length_map_to_list.
Qed.

Lemma summaryWithErrors_Errors :
  Errors summaryWithErrors = <["timeout"%string := 7]> {["503"%string := 2]}.
Proof. reflexivity. Qed.

Lemma summaryWithTie_Errors :
  Errors summaryWithTie = <["timeout"%string := 1]> {["connection refused"%string := 1]}.
Proof. reflexivity. Qed.

Lemma sort_Sort_pair (a c : Error) :
  Count c <= Count a -> sort_Sort (Reverse_Less Less) [a; c] [a; c].
Proof.
  intros H. split; [reflexivity|].
  intros i j [Hij Hj]. cbn [length] in Hj.
  destruct i as [|i]; destruct j as [|[|j]]; try lia.
  unfold Reverse_Less, Less. cbn. apply Z.ltb_ge. exact H.
Qed.

Lemma errorRows_descending_witness :
  Count (mkError "503" 2) <= Count (mkError "timeout" 7) /\
  length [mkError "timeout" 7; mkError "503" 2] = size (Errors summaryWithErrors).
Proof.
  destruct (errorRows_descending summaryWithErrors
              [mkError "timeout" 7; mkError "503" 2]) as (Hdesc & _ & Hlen).
  - exists [("timeout"%string, 7); ("503"%string, 2)]. split.
    + unfold MapRange. rewrite summaryWithErrors_Errors.
      rewrite map_to_list_insert by (apply lookup_singleton_ne; discriminate).
      rewrite map_to_list_singleton. reflexivity.
    + apply (sort_Sort_pair (mkError "timeout" 7) (mkError "503" 2)). cbn. lia.
  - split; [|exact Hlen].
    apply (Hdesc 0%nat 1%nat); [lia | reflexivity | reflexivity].
Defined.

(** The summary holds the refused connection, met first, and the timeout,
    met second, once each.  Both orders of the two rows are tables that
    [String] can print: the order of rows with equal counts is the order in
    which the map happens to be visited, not the order of insertion. *)
Lemma error_rows_tie_in_either_order :
  Errors summaryWithTie =
    formatErrors [("connection refused"%string, 1); ("timeout"%string, 1)] /\
  errorRows summaryWithTie [mkError "connection refused" 1; mkError "timeout" 1] /\
  errorRows summaryWithTie [mkError "timeout" 1; mkError "connection refused" 1].
Proof.
  split; [reflexivity|].
  assert (Hp : MapRange (Errors summaryWithTie)
                 [("timeout"%string, 1); ("connection refused"%string, 1)]).
  { unfold MapRange. rewrite summaryWithTie_Errors.
    rewrite map_to_list_insert by (apply lookup_singleton_ne; discriminate).
    rewrite map_to_list_singleton. reflexivity. }
  split.
  - exists [("connection refused"%string, 1); ("timeout"%string, 1)]. split.
    + unfold MapRange in *. rewrite <- Hp. apply perm_swap.
    + apply (sort_Sort_pair (mkError "connection refused" 1) (mkError "timeout" 1)).
      cbn. lia.
  - exists [("timeout"%string, 1); ("connection refused"%string, 1)]. split.
    + exact Hp.
    + apply (sort_Sort_pair (mkError "timeout" 1) (mkError "connection refused" 1)).
      cbn. lia.
Qed.

(* ================================================================= *)
(** ** The distribution file *)

Lemma append_nil_r (s : string) : (s ++ "")%string = s.
Proof.
  induction s as [|a s IH]; [reflexivity|].
  rewrite append_String, IH. reflexivity.
Qed.

Lemma append_assoc (s1 s2 s3 : string) :
  ((s1 ++ s2) ++ s3)%string = (s1 ++ (s2 ++ s3))%string.
Proof.
  induction s1 as [|a s1 IH]; [reflexivity|].
  rewrite !append_String, IH. reflexivity.
Qed.

Lemma length_append (s1 s2 : string) :
  String.length (s1 ++ s2) = (String.length s1 + String.length s2)%nat.
Proof.
  induction s1 as [|a s1 IH]; [reflexivity|].
  rewrite append_String. cbn [String.length]. rewrite IH. reflexivity.
Qed.

Lemma uncorrected_is_another_file (file : string) :
  (file ++ ".uncorrected")%string <> file.
Proof.
  intros H. apply (f_equal String.length) in H.
  rewrite length_append in H. cbn [String.length] in H. lia.
Qed.

Lemma os_Create_ok (d : Disk) (name : string) :
  faults d = [] -> os_Create d name = (mkDisk (<[name := ""%string]> (files d)) [], None).
Proof.
  intros H. unfold os_Create, nextFault. rewrite H. cbn. rewrite H. reflexivity.
Qed.

Lemma WriteString_ok (d : Disk) (name text content : string) :
  faults d = [] -> files d !! name = Some content ->
  WriteString d name text = (mkDisk (<[name := (content ++ text)%string]> (files d)) [], None).
Proof.
  intros H Hc. unfold WriteString, nextFault. rewrite H. cbn. rewrite H, Hc. reflexivity.
Qed.

(** With no failing write, the loop appends the rows of the percentiles,
    first to last, to what the file holds. *)
Lemma writeRows_ok (lib : HdrLib) (fmt : FmtLib) (file : string) (h : Histogram)
    (ps : list float) :
  forall (d : Disk) (content : string),
    faults d = [] -> files d !! file = Some content ->
    writeRows lib fmt d file h ps =
      (mkDisk (<[file := (content ++ joinRows (map (distributionRow lib fmt h) ps))%string]>
                 (files d)) [], None).
Proof.
  induction ps as [|p ps IH]; intros d content Hf Hc.
  - cbn [writeRows map joinRows fold_right]. rewrite append_nil_r.
    rewrite (insert_id _ _ _ Hc). destruct d as [fs fl]. cbn in Hf. subst fl. reflexivity.
  - cbn [writeRows]. rewrite (WriteString_ok d file _ content Hf Hc).
    rewrite (IH _ (content ++ distributionRow lib fmt h p)%string);
      [| reflexivity | apply lookup_insert_eq].
    cbn [files map joinRows fold_right]. rewrite insert_insert_eq, append_assoc.
    reflexivity.
Qed.

(** C7.  When no call of the file system fails, the file written for a
    list of percentiles (the default list when the list is [nil]) holds
    the header and then one row for each percentile, in the order of the
    list: the value at that quantile divided by 1e6, the percentile divided
    by 100, a literal 0, and [1/(1 - percentile/100)], each row ending in a
    newline. *)
Theorem distribution_file (lib : HdrLib) (fmt : FmtLib) (d : Disk)
    (histogram : Histogram) (unHistogram : option Histogram) (rate : float)
    (percentiles : Percentiles) (file : string) :
  faults d = [] ->
  exists d',
    generateLatencyDistribution lib fmt d histogram unHistogram rate percentiles file
      = (d', None) /\
    files d' !! file =
      Some (("Value    Percentile    TotalCount    1/(1-Percentile)"
             ++ String "010" (String "010" ""))
            ++ joinRows
                 (map (fun p : float =>
                         fmt_f fmt (float64_of_Z (ValueAtQuantile lib histogram p) / 1000000)%float
                         ++ "    " ++ fmt_f fmt (p / 100)%float
                         ++ "        " ++ "0" ++ "            "
                         ++ fmt_f fmt (1 / (1 - p / 100))%float
                         ++ String "010" "")
                      (match percentiles with
                       | None => Logarithmic
                       | Some ps => ps
                       end)))%string.
Proof.
  intros Hf. unfold generateLatencyDistribution.
  set (ps := match percentiles with None => Logarithmic | Some ps => ps end).
  rewrite (os_Create_ok d file Hf).
  rewrite (WriteString_ok _ file distributionHeader ""%string);
    [| reflexivity | apply lookup_insert_eq].
  cbn [fst files].
  rewrite (writeRows_ok lib fmt file histogram ps _ ("" ++ distributionHeader)%string);
    [| reflexivity | apply lookup_insert_eq].
  cbn [files]. rewrite !insert_insert_eq.
  assert (Hmain :
    forall un_written : gmap string string,
      un_written !! file =
        Some (("" ++ distributionHeader) ++
              joinRows (map (distributionRow lib fmt histogram) ps))%string ->
      un_written !! file =
        Some (("Value    Percentile    TotalCount    1/(1-Percentile)"
               ++ String "010" (String "010" ""))
              ++ joinRows
                   (map (fun p : float =>
                           fmt_f fmt (float64_of_Z (ValueAtQuantile lib histogram p) / 1000000)%float
                           ++ "    " ++ fmt_f fmt (p / 100)%float
                           ++ "        " ++ "0" ++ "            "
                           ++ fmt_f fmt (1 / (1 - p / 100))%float
                           ++ String "010" "")
                        ps))%string).
  { intros m ->. reflexivity. }
  destruct unHistogram as [un|].
  - destruct (0 <? rate)%float.
    + rewrite (os_Create_ok _ (file ++ ".uncorrected")%string) by reflexivity.
      rewrite (WriteString_ok _ (file ++ ".uncorrected")%string distributionHeader ""%string);
        [| reflexivity | apply lookup_insert_eq].
      cbn [fst files].
      rewrite (writeRows_ok lib fmt (file ++ ".uncorrected")%string un ps _
                 ("" ++ distributionHeader)%string);
        [| reflexivity | apply lookup_insert_eq].
      eexists. split; [reflexivity|]. cbn [files]. apply Hmain.
      rewrite !lookup_insert_ne by apply uncorrected_is_another_file.
      apply lookup_insert_eq.
    + eexists. split; [reflexivity|]. cbn [files]. apply Hmain. apply lookup_insert_eq.
  - eexists. split; [reflexivity|]. cbn [files]. apply Hmain. apply lookup_insert_eq.
Qed.

Lemma distribution_file_witness :
  exists d',
    generateLatencyDistribution rangeLib opaqueFmt (mkDisk ∅ [])
      (hdrhistogram_New minRecordableLatencyNS maxRecordableLatencyNS sigFigs)
      None 100%float (Some [50; 99]%float) "out/res.hgrm"
      = (d', None) /\
    files d' !! "out/res.hgrm"%string =
      Some ("Value    Percentile    TotalCount    1/(1-Percentile)"
            ++ String "010" (String "010" "")
            ++ "?    ?        0            ?" ++ String "010" ""
            ++ "?    ?        0            ?" ++ String "010" "")%string.
Proof.
  destruct (distribution_file rangeLib opaqueFmt (mkDisk ∅ [])
              (hdrhistogram_New minRecordableLatencyNS maxRecordableLatencyNS sigFigs)
              None 100%float (Some [50; 99]%float) "out/res.hgrm")
    as (d' & Hrun & Hfile).
  - reflexivity.
  - exists d'. split; [exact Hrun|]. rewrite Hfile. reflexivity.
Defined.

(* ================================================================= *)
(** * More properties of the program *)

(* ================================================================= *)
(** ** More on the probe and the tickers *)

Lemma firstPositive_Some (readings : list Duration) :
  Exists (fun r => 0 < r) readings -> is_Some (firstPositive readings).
Proof.
  induction 1 as [r rest Hr | r rest _ IH]; cbn.
  - apply Z.ltb_lt in Hr. rewrite Hr. eexists. reflexivity.
  - destruct (0 <? r); [eexists; reflexivity | exact IH].
Qed.

Lemma firstPositive_Exists (readings : list Duration) (r : Duration) :
  firstPositive readings = Some r -> Exists (fun r => 0 < r) readings.
Proof.
  induction readings as [|a l IH]; cbn; [discriminate|].
  destruct (0 <? a) eqn:Ea.
  - intros _. constructor. apply Z.ltb_lt. exact Ea.
  - intros H. constructor 2. apply IH. exact H.
Qed.

Lemma firstPositive_None (readings : list Duration) :
  firstPositive readings = None -> ~ Exists (fun r => 0 < r) readings.
Proof.
  intros H Hex. apply firstPositive_Some in Hex as [r Hr]. congruence.
Qed.

(** [n] rounds of the probe: they end exactly when each round meets a
    positive reading, and the answer is the least of where they started
    from and the first positive reading of each round. *)
Lemma detectTrials_min (n : nat) :
  forall clock best,
    (is_Some (detectTrials n clock best) <->
       (n <= length clock)%nat /\ Forall (Exists (fun r => 0 < r)) (take n clock)) /\
    forall res, detectTrials n clock best = Some res ->
      res <= best /\
      (forall readings r, readings ∈ take n clock ->
                          firstPositive readings = Some r -> res <= r) /\
      (res = best \/
       exists readings, readings ∈ take n clock /\ firstPositive readings = Some res).
Proof.
  induction n as [|n IH]; intros clock best.
  - cbn. split.
    + split; [intros _; split; [lia | constructor] | intros _; eexists; reflexivity].
    + intros res [= <-]. split; [lia|]. split; [|left; reflexivity].
      intros readings r Hin. apply elem_of_nil in Hin. contradiction.
  - destruct clock as [|readings clock'].
    + cbn. split.
      * split; [intros [? ?]; discriminate | intros [? _]; lia].
      * discriminate.
    + cbn [detectTrials take length].
      destruct (firstPositive readings) as [r0|] eqn:E0.
      * set (best' := if r0 <? best then r0 else best).
        assert (Hb' : best' <= best /\ best' <= r0 /\ (best' = best \/ best' = r0)).
        { unfold best'. destruct (r0 <? best) eqn:E;
            [apply Z.ltb_lt in E | apply Z.ltb_ge in E]; lia. }
        destruct (IH clock' best') as [Hiff Hres]. split.
        -- rewrite Hiff. split.
           ++ intros [Hlen Hall]. split; [lia|]. constructor; [|exact Hall].
              apply (firstPositive_Exists _ _ E0).
           ++ intros [Hlen Hall]. apply Forall_cons in Hall as [_ Hall].
              split; [lia | exact Hall].
        -- intros res Hr. destruct (Hres res Hr) as (Hle & Hmin & Hwhich).
           split; [lia|]. split.
           ++ intros rd r Hin Hfp. apply elem_of_cons in Hin as [->|Hin].
              ** rewrite E0 in Hfp. injection Hfp as <-. lia.
              ** apply (Hmin rd r Hin Hfp).
           ++ destruct Hwhich as [->|(rd & Hin & Hfp)].
              ** destruct Hb' as (_ & _ & [->| ->]); [left; reflexivity|].
                 right. exists readings. split; [apply list_elem_of_here | exact E0].
              ** right. exists rd. split; [apply list_elem_of_further; exact Hin | exact Hfp].
      * split.
        -- split; [intros [? ?]; discriminate|].
           intros [_ Hall]. apply Forall_cons in Hall as [Hex _].
           exfalso. apply (firstPositive_None _ E0 Hex).
        -- discriminate.
Qed.

(** X1.  [detectOsTimerResolution] returns exactly when each of its ten
    rounds meets a positive reading of [time.Since]; what it returns is
    positive, at most one hour, and the least of one hour and the first
    positive readings of the ten rounds. *)
Theorem detectOsTimerResolution_least (clock : list (list Duration)) :
  (is_Some (detectOsTimerResolution clock) <->
     (10 <= length clock)%nat /\ Forall (Exists (fun r => 0 < r)) (take 10 clock)) /\
  forall timerRes, detectOsTimerResolution clock = Some timerRes ->
    0 < timerRes <= Hour /\
    (forall readings r, readings ∈ take 10 clock ->
                        firstPositive readings = Some r -> timerRes <= r) /\
    (timerRes = Hour \/
     exists readings, readings ∈ take 10 clock /\ firstPositive readings = Some timerRes).
Proof.
  destruct (detectTrials_min 10 clock Hour) as [Hiff Hres].
  split; [exact Hiff|].
  intros timerRes H. destruct (Hres timerRes H) as (Hle & Hmin & Hwhich).
  split; [|split; [exact Hmin | exact Hwhich]].
  split; [|exact Hle].
  destruct Hwhich as [->|(rd & _ & Hfp)]; [reflexivity|].
  apply (firstPositive_pos _ _ Hfp).
Qed.

(** X2.  With the resolution the probe returned, [tickerFunc] prints its
    warning only when it goes on to use the tight ticker: whenever the
    sleeping ticker is chosen, three times the resolution fits in
    [expectedInterval] and nothing is printed. *)
Theorem warning_means_tight_ticker (b : Benchmark) (clock : list (list Duration))
    (timerRes : Duration) (force : bool) :
  detectOsTimerResolution clock = Some timerRes ->
  (timerWarning b timerRes = true <-> expectedInterval b < 3 * timerRes) /\
  (timerWarning b timerRes = true -> chooseTicker b timerRes force = TightTicker) /\
  (chooseTicker b timerRes force = SleepingTicker -> timerWarning b timerRes = false).
Proof.
  intros Hres.
  pose proof (detectOsTimerResolution_bound _ _ Hres) as Hb.
  assert (H3 : wrap64 (timerRes * 3) = 3 * timerRes).
  { rewrite wrap64_small; unfold Hour, Second, minInt64, maxInt64 in *; lia. }
  assert (H7 : wrap64 (7 * timerRes) = 7 * timerRes).
  { apply wrap64_small. unfold Hour, Second, minInt64, maxInt64 in *. lia. }
  unfold timerWarning, chooseTicker. rewrite H3, H7.
  destruct (expectedInterval b <? 3 * timerRes) eqn:Ew;
    [apply Z.ltb_lt in Ew | apply Z.ltb_ge in Ew].
  - split; [split; [intros _; exact Ew | reflexivity]|].
    destruct (7 * timerRes <=? expectedInterval b) eqn:E7;
      [apply Z.leb_le in E7; lia|].
    rewrite andb_false_r. split; [reflexivity | discriminate].
  - split; [split; [discriminate | lia]|].
    split; [discriminate | reflexivity].
Qed.

Lemma warning_means_tight_ticker_witness :
  timerWarning (benchmarkWithBase 0) (4 * Millisecond) = true /\
  chooseTicker (benchmarkWithBase 0) (4 * Millisecond) false = TightTicker.
Proof.
  destruct (warning_means_tight_ticker (benchmarkWithBase 0)
              (repeat [0; 4 * Millisecond] 10) (4 * Millisecond) false)
    as (Hw & Ht & _); [reflexivity|].
  assert (H : timerWarning (benchmarkWithBase 0) (4 * Millisecond) = true).
  { apply Hw. vm_compute. reflexivity. }
  split; [exact H | exact (Ht H)].
Defined.

(* ================================================================= *)
(** ** The tight ticker, over a whole run *)

Lemma Time_Sub_ge (t u : Time) (d : Duration) :
  minInt64 < d -> d <= Time_Sub t u -> d <= t - u.
Proof. unfold Time_Sub, minInt64, maxInt64. lia. Qed.

(** After any number of readings: [lastTick] has moved by one interval for
    each tick generated, each tick generated was counted once, as timely
    (and handed over, in the order of the readings) or as missed, and no
    tick was generated before its time on the clock. *)
Lemma tightLoop_account (b : Benchmark) (start : Time) (polls : list Poll) :
  forall t0 t stop,
    0 <= tk_timelyTicks t0 < 2^64 -> 0 <= tk_missedTicks t0 < 2^64 ->
    tightLoop b start t0 polls = (t, stop) ->
    exists (delivered : list Time) (missed generated : nat),
      (generated = length delivered + missed)%nat /\
      (generated <= length polls)%nat /\
      tk_lastTick t = tk_lastTick t0 + Z.of_nat generated * expectedInterval b /\
      tk_timelyTicks t = wrapU64 (tk_timelyTicks t0 + Z.of_nat (length delivered)) /\
      tk_missedTicks t = wrapU64 (tk_missedTicks t0 + Z.of_nat missed) /\
      tk_out t = tk_out t0 ++ delivered /\
      delivered `sublist_of` map poll_now polls /\
      (stop = true -> (0 < generated)%nat /\ tk_closed t = true) /\
      (stop = false -> tk_closed t = tk_closed t0) /\
      (minInt64 < expectedInterval b -> (0 < generated)%nat ->
       exists p, p ∈ polls /\ tk_lastTick t <= poll_now p).
Proof.
  induction polls as [|p polls IH]; intros t0 t stop Ht0 Hm0.
  - cbn. intros [= <- <-]. exists [], 0%nat, 0%nat.
    rewrite app_nil_r, !Z.add_0_r, !wrapU64_small by assumption. cbn.
    repeat split; try lia; try discriminate. apply sublist_nil.
  - cbn [tightLoop]. unfold tightPoll.
    destruct (expectedInterval b <=? Time_Sub (poll_now p) (tk_lastTick t0)) eqn:Efire.
    + apply Z.leb_le in Efire.
      set (t1 := trySend (set_lastTick t0 (Time_Add (tk_lastTick t0) (expectedInterval b)))
                         (poll_now p) (poll_ready p)).
      assert (Hlast1 : tk_lastTick t1 = tk_lastTick t0 + expectedInterval b).
      { unfold t1, trySend. destruct (poll_ready p); reflexivity. }
      assert (Hclosed1 : tk_closed t1 = tk_closed t0).
      { unfold t1, trySend. destruct (poll_ready p); reflexivity. }
      assert (Hacc1 : exists (d1 : list Time) (m1 : nat),
                 (length d1 + m1 = 1)%nat /\
                 tk_timelyTicks t1 = wrapU64 (tk_timelyTicks t0 + Z.of_nat (length d1)) /\
                 tk_missedTicks t1 = wrapU64 (tk_missedTicks t0 + Z.of_nat m1) /\
                 tk_out t1 = tk_out t0 ++ d1 /\ d1 `sublist_of` [poll_now p]).
      { unfold t1, trySend. destruct (poll_ready p); cbn.
        - exists [poll_now p], 0%nat. cbn. rewrite Z.add_0_r, (wrapU64_small (tk_missedTicks t0)) by assumption.
          repeat split; reflexivity.
        - exists [], 1%nat. cbn. rewrite Z.add_0_r, app_nil_r, (wrapU64_small (tk_timelyTicks t0)) by assumption.
          repeat split; try reflexivity. apply sublist_nil_l. }
      destruct Hacc1 as (d1 & m1 & Hone & Ht1 & Hm1 & Ho1 & Hs1).
      destruct (duration b <? Time_Sub (poll_now p) start).
      * intros [= <- <-]. exists d1, m1, 1%nat.
        split; [lia|]. split; [cbn; lia|].
        cbn [closeOut tk_lastTick tk_timelyTicks tk_missedTicks tk_out tk_closed].
        split; [rewrite Hlast1; lia|]. split; [exact Ht1|]. split; [exact Hm1|].
        split; [exact Ho1|].
        split; [cbn [map]; rewrite <- (app_nil_r d1);
                change (poll_now p :: map poll_now polls) with ([poll_now p] ++ map poll_now polls);
                apply (sublist_app d1 [poll_now p] [] (map poll_now polls) Hs1 (sublist_nil_l _)) |].
        split; [intros _; split; [lia | reflexivity]|].
        split; [discriminate|].
        intros Hmin _. exists p. split; [apply list_elem_of_here|].
        rewrite Hlast1. pose proof (Time_Sub_ge _ _ _ Hmin Efire). lia.
      * intros Hrest.
        assert (R1 : 0 <= tk_timelyTicks t1 < 2^64) by (rewrite Ht1; apply wrapU64_range).
        assert (R2 : 0 <= tk_missedTicks t1 < 2^64) by (rewrite Hm1; apply wrapU64_range).
        destruct (IH t1 t stop R1 R2 Hrest)
          as (d & m & g & Hg & Hlen & Hlast & Htm & Hmi & Hout & Hsub & Hstop & Hgo & Hsched).
        exists (d1 ++ d), (m1 + m)%nat, (S g).
        rewrite length_app.
        split; [lia|]. split; [cbn; lia|].
        split; [rewrite Hlast, Hlast1; lia|].
        split; [rewrite Htm, Ht1, wrapU64_add_l; f_equal; lia|].
        split; [rewrite Hmi, Hm1, wrapU64_add_l; f_equal; lia|].
        split; [rewrite Hout, Ho1, app_assoc; reflexivity|].
        split; [cbn [map]; change (poll_now p :: map poll_now polls) with ([poll_now p] ++ map poll_now polls);
                apply (sublist_app d1 [poll_now p] d (map poll_now polls) Hs1 Hsub)|].
        split; [intros Hs; split; [lia | apply (Hstop Hs)]|].
        split; [intros Hs; rewrite (Hgo Hs); exact Hclosed1|].
        intros Hmin _. destruct g as [|g].
        -- exists p. split; [apply list_elem_of_here|].
           rewrite Hlast, Hlast1. pose proof (Time_Sub_ge _ _ _ Hmin Efire). lia.
        -- destruct (Hsched Hmin) as (q & Hq & Hle); [lia|].
           exists q. split; [apply list_elem_of_further; exact Hq | exact Hle].
    + intros Hrest.
      destruct (IH t0 t stop Ht0 Hm0 Hrest)
        as (d & m & g & Hg & Hlen & Hlast & Htm & Hmi & Hout & Hsub & Hstop & Hgo & Hsched).
      exists d, m, g.
      split; [exact Hg|]. split; [cbn; lia|].
      split; [exact Hlast|]. split; [exact Htm|]. split; [exact Hmi|]. split; [exact Hout|].
      split; [cbn [map]; apply sublist_cons; exact Hsub|].
      split; [exact Hstop|]. split; [exact Hgo|].
      intros Hmin Hpos. destruct (Hsched Hmin Hpos) as (q & Hq & Hle).
      exists q. split; [apply list_elem_of_further; exact Hq | exact Hle].
Qed.

(** X3.  A run of the tight ticker that comes to its end has generated at
    least one tick and at most one for each reading of the clock; each was
    counted once, as timely or as missed; the timely ones are the ticks the
    workers received, which are readings of the clock in the order they
    were made; [lastTick] has moved from [start] by exactly one interval
    for each tick generated; and the channel is closed. *)
Theorem tightTicker_accounts (b : Benchmark) (start : Time) (polls : list Poll)
    (finish : Duration) (b' : Benchmark) (t : Ticker) :
  tightTicker b start polls finish = Some (b', t) ->
  Z.of_nat (length polls) < 2^64 ->
  0 < timelyTicks b' + missedTicks b' <= Z.of_nat (length polls) /\
  timelyTicks b' = Z.of_nat (length (tk_out t)) /\
  tk_lastTick t = start + (timelyTicks b' + missedTicks b') * expectedInterval b /\
  tk_out t `sublist_of` map poll_now polls /\
  tk_closed t = true /\
  elapsed b' = finish.
Proof.
  unfold tightTicker. intros Hrun Hlen.
  destruct (tightLoop b start (mkTicker start 0 0 [] false) polls) as [t1 stop] eqn:Eloop.
  destruct stop; [|discriminate]. injection Hrun as <- <-.
  destruct (tightLoop_account b start polls (mkTicker start 0 0 [] false) t1 true)
    as (d & m & g & Hg & Hle & Hlast & Htm & Hmi & Hout & Hsub & Hstop & _ & _);
    [cbn; lia | cbn; lia | exact Eloop |].
  destruct (Hstop eq_refl) as [Hpos Hclosed].
  cbn [tk_timelyTicks tk_missedTicks tk_lastTick tk_out] in *.
  cbn [set_ticks timelyTicks missedTicks elapsed].
  rewrite Z.add_0_l in Htm, Hmi. rewrite wrapU64_small in Htm, Hmi by lia.
  rewrite app_nil_l in Hout. subst d.
  rewrite Htm, Hmi, Hlast.
  repeat split; try lia; try assumption.
Qed.

Lemma tightTicker_accounts_witness :
  exists b' t,
    tightTicker (benchmarkFor (25 * Millisecond)) 0
      [mkPoll (4 * Millisecond) true; mkPoll (10 * Millisecond) true;
       mkPoll (23 * Millisecond) false; mkPoll (26 * Millisecond) true;
       mkPoll (31 * Millisecond) true]
      (31 * Millisecond + 500) = Some (b', t) /\
    0 < timelyTicks b' + missedTicks b' <= 5 /\
    tk_closed t = true.
Proof.
  destruct (tightTicker (benchmarkFor (25 * Millisecond)) 0
      [mkPoll (4 * Millisecond) true; mkPoll (10 * Millisecond) true;
       mkPoll (23 * Millisecond) false; mkPoll (26 * Millisecond) true;
       mkPoll (31 * Millisecond) true]
      (31 * Millisecond + 500)) as [[b' t]|] eqn:E; [|vm_compute in E; discriminate].
  exists b', t. split; [reflexivity|].
  destruct (tightTicker_accounts _ _ _ _ _ _ E) as (H1 & _ & _ & _ & H5 & _);
    [vm_compute; reflexivity|].
  split; [exact H1 | exact H5].
Defined.

(** X4.  The tight ticker is never ahead of the clock: at any moment of
    its loop, if it has generated [n > 0] ticks so far, then some reading
    it has made is at least [start + n * expectedInterval]. *)
Theorem tightTicker_never_early (b : Benchmark) (start : Time) (polls : list Poll)
    (t : Ticker) (stop : bool) :
  minInt64 < expectedInterval b ->
  Z.of_nat (length polls) < 2^64 ->
  tightLoop b start (mkTicker start 0 0 [] false) polls = (t, stop) ->
  0 < tk_timelyTicks t + tk_missedTicks t ->
  exists p, p ∈ polls /\
    start + (tk_timelyTicks t + tk_missedTicks t) * expectedInterval b <= poll_now p.
Proof.
  intros Hmin Hlen Hloop Hpos.
  destruct (tightLoop_account b start polls (mkTicker start 0 0 [] false) t stop)
    as (d & m & g & Hg & Hle & Hlast & Htm & Hmi & _ & _ & _ & _ & Hsched);
    [cbn; lia | cbn; lia | exact Hloop |].
  cbn [tk_timelyTicks tk_missedTicks tk_lastTick] in *.
  rewrite Z.add_0_l in Htm, Hmi. rewrite wrapU64_small in Htm, Hmi by lia.
  destruct (Hsched Hmin) as (p & Hp & Hle'); [lia|].
  exists p. split; [exact Hp|].
  rewrite Htm, Hmi. rewrite Hlast in Hle'.
  replace (Z.of_nat (length d) + Z.of_nat m) with (Z.of_nat g) by lia. exact Hle'.
Qed.

Lemma tightTicker_never_early_witness :
  exists p, p ∈ [mkPoll (10 * Millisecond) true; mkPoll (23 * Millisecond) false] /\
            20 * Millisecond <= poll_now p.
Proof.
  destruct (tightTicker_never_early (benchmarkFor (25 * Millisecond)) 0
              [mkPoll (10 * Millisecond) true; mkPoll (23 * Millisecond) false]
              (mkTicker (20 * Millisecond) 1 1 [10 * Millisecond] false) false)
    as (p & Hp & Hle).
  - vm_compute. reflexivity.
  - vm_compute. reflexivity.
  - vm_compute. reflexivity.
  - vm_compute. reflexivity.
  - exists p. split; [exact Hp|]. exact Hle.
Defined.

(* ================================================================= *)
(** ** The sleeping ticker *)

Lemma ticksBeforeOver_Some (events : list SleepEvent) :
  is_Some (ticksBeforeOver events) <-> DurationOver ∈ events.
Proof.
  induction events as [|e events IH].
  - split; [intros [? ?]; discriminate | intros H; apply elem_of_nil in H; contradiction].
  - destruct e as [tm ready|]; cbn [ticksBeforeOver].
    + split.
      * intros [fired H]. apply list_elem_of_further. apply IH.
        destruct (ticksBeforeOver events); [eexists; reflexivity | discriminate].
      * intros H. apply elem_of_cons in H as [H|H]; [discriminate|].
        apply IH in H as [fired ->]. eexists. reflexivity.
    + split; [intros _; apply list_elem_of_here | intros _; eexists; reflexivity].
Qed.

Lemma ticksBeforeOver_length (events : list SleepEvent) (fired : list (Time * bool)) :
  ticksBeforeOver events = Some fired -> (length fired < length events)%nat.
Proof.
  revert fired. induction events as [|e events IH]; intros fired; [discriminate|].
  destruct e as [tm ready|]; cbn [ticksBeforeOver length].
  - destruct (ticksBeforeOver events) as [f|]; [|discriminate].
    intros [= <-]. cbn [length]. specialize (IH f eq_refl). lia.
  - intros [= <-]. cbn. lia.
Qed.

Lemma sleepingLoop_account (events : list SleepEvent) :
  forall t0 t stop,
    0 <= tk_timelyTicks t0 < 2^64 -> 0 <= tk_missedTicks t0 < 2^64 ->
    sleepingLoop t0 events = (t, stop) ->
    match ticksBeforeOver events with
    | None => stop = false
    | Some fired =>
        stop = true /\
        tk_timelyTicks t =
          wrapU64 (tk_timelyTicks t0
                   + Z.of_nat (length (filter (fun x => snd x = true) fired))) /\
        tk_missedTicks t =
          wrapU64 (tk_missedTicks t0
                   + Z.of_nat (length (filter (fun x => snd x = false) fired))) /\
        tk_out t = tk_out t0 ++ map fst (filter (fun x => snd x = true) fired) /\
        tk_lastTick t = tk_lastTick t0 /\
        tk_closed t = true
    end.
Proof.
  induction events as [|e events IH]; intros t0 t stop Ht0 Hm0.
  - cbn. intros [= _ <-]. reflexivity.
  - destruct e as [tm ready|]; cbn [sleepingLoop ticksBeforeOver].
    + intros Hrest.
      assert (R1 : 0 <= tk_timelyTicks (trySend t0 tm ready) < 2^64).
      { unfold trySend. destruct ready; cbn; [apply wrapU64_range | exact Ht0]. }
      assert (R2 : 0 <= tk_missedTicks (trySend t0 tm ready) < 2^64).
      { unfold trySend. destruct ready; cbn; [exact Hm0 | apply wrapU64_range]. }
      specialize (IH _ _ _ R1 R2 Hrest).
      destruct (ticksBeforeOver events) as [fired|]; cbn [option_map]; [|exact IH].
      destruct IH as (-> & Htm & Hmi & Hout & Hlast & Hclosed).
      split; [reflexivity|].
      rewrite !filter_cons. cbn [snd fst].
      unfold trySend in *. destruct ready; cbn in *.
      * rewrite decide_True by reflexivity. rewrite decide_False by discriminate.
        cbn [length map]. rewrite Htm, Hmi, Hout, Hlast, Hclosed, wrapU64_add_l.
        rewrite <- app_assoc. cbn [app].
        repeat split; f_equal; lia.
      * rewrite decide_False by discriminate. rewrite decide_True by reflexivity.
        cbn [length map]. rewrite Htm, Hmi, Hout, Hlast, Hclosed, wrapU64_add_l.
        repeat split; f_equal; lia.
    + intros [= <- <-]. cbn. rewrite !Z.add_0_r, !wrapU64_small, app_nil_r by assumption.
      repeat split.
Qed.

(** X5.  The sleeping ticker comes to its end exactly when [time.After]
    signals.  It has then sent [start] as its first tick and counted it as
    timely; every tick of [time.Tick] that fired before the signal was
    counted once, as timely and handed over when a worker was waiting and
    as missed when none was; ticks after the signal are not looked at; and
    the channel is closed. *)
Theorem sleepingTicker_accounts (b : Benchmark) (start : Time)
    (events : list SleepEvent) (finish : Duration) :
  (is_Some (sleepingTicker b start events finish) <-> DurationOver ∈ events) /\
  forall b' t,
    Z.of_nat (length events) < 2^64 ->
    sleepingTicker b start events finish = Some (b', t) ->
    exists fired,
      ticksBeforeOver events = Some fired /\
      timelyTicks b' + missedTicks b' = 1 + Z.of_nat (length fired) /\
      timelyTicks b' = Z.of_nat (length (tk_out t)) /\
      tk_out t = start :: map fst (filter (fun x => snd x = true) fired) /\
      missedTicks b' = Z.of_nat (length (filter (fun x => snd x = false) fired)) /\
      tk_closed t = true /\
      elapsed b' = finish.
Proof.
  unfold sleepingTicker.
  destruct (sleepingLoop (mkTicker start (wrapU64 (0 + 1)) 0 [start] false) events)
    as [t1 stop] eqn:Eloop.
  pose proof (sleepingLoop_account events (mkTicker start (wrapU64 (0 + 1)) 0 [start] false)
                t1 stop (wrapU64_range (0 + 1)) ltac:(cbn; lia) Eloop) as Hacc.
  split.
  - rewrite <- ticksBeforeOver_Some.
    destruct (ticksBeforeOver events) as [fired|].
    + destruct Hacc as (-> & _). split; intros _; eexists; reflexivity.
    + subst stop. split; intros [? ?]; discriminate.
  - intros b' t Hlen Hrun. destruct stop; [|discriminate]. injection Hrun as <- <-.
    destruct (ticksBeforeOver events) as [fired|] eqn:Efired; [|discriminate].
    destruct Hacc as (_ & Htm & Hmi & Hout & _ & Hclosed).
    pose proof (ticksBeforeOver_length _ _ Efired) as Hshort.
    assert (Hsum : (length (filter (fun x : Time * bool => snd x = true) fired)
                    + length (filter (fun x : Time * bool => snd x = false) fired)
                    = length fired)%nat).
    { clear. induction fired as [|[tm r] fired IH]; [reflexivity|].
      rewrite !filter_cons. cbn [snd]. destruct r.
      - rewrite decide_True by reflexivity. rewrite decide_False by discriminate.
        cbn [length]. lia.
      - rewrite decide_False by discriminate. rewrite decide_True by reflexivity.
        cbn [length]. lia. }
    cbn [tk_timelyTicks tk_missedTicks tk_out] in Htm, Hmi, Hout.
    change (wrapU64 (0 + 1)) with 1 in Htm.
    rewrite wrapU64_small in Htm by lia. rewrite Z.add_0_l, wrapU64_small in Hmi by lia.
    exists fired. cbn [set_ticks timelyTicks missedTicks elapsed].
    rewrite Htm, Hmi, Hout. cbn [app length]. rewrite length_map.
    repeat split; try lia; try assumption.
Qed.

(* ================================================================= *)
(** ** More on the workers *)

Lemma workerTick_fold_samples (b : Benchmark) (ticks : list TickEvent) :
  forall w,
    w_results (fold_left (workerTick b) ticks w) =
      w_results w ++ map (fun ev => Z.max 0 (ev_since ev))
                         (filter (fun ev => ev_err ev = None) ticks) /\
    w_errors (fold_left (workerTick b) ticks w) = w_errors w ++ omap ev_err ticks.
Proof.
  induction ticks as [|ev ticks IH]; intros w.
  - cbn. rewrite !app_nil_r. split; reflexivity.
  - cbn [fold_left]. destruct (IH (workerTick b w ev)) as [Hr He].
    rewrite Hr, He. rewrite filter_cons.
    assert (Ho : omap ev_err (ev :: ticks) =
                 match ev_err ev with
                 | Some err => err :: omap ev_err ticks
                 | None => omap ev_err ticks
                 end) by reflexivity.
    rewrite Ho. clear Ho Hr He.
    unfold workerTick, Nanoseconds. destruct (ev_err ev) as [err|].
    + rewrite decide_False by discriminate. cbn [w_results w_errors].
      rewrite <- app_assoc. split; reflexivity.
    + rewrite decide_True by reflexivity. cbn [w_results w_errors map].
      rewrite <- app_assoc. cbn [app]. split; [|reflexivity].
      do 2 f_equal. destruct (ev_since ev <? 0) eqn:E;
        [apply Z.ltb_lt in E | apply Z.ltb_ge in E]; lia.
Qed.

(** X6.  A worker whose [Setup] succeeds sends its samples in the order of
    the ticks it received: on [results], for each request that succeeded,
    the measured latency, or 0 when the measurement came back negative; on
    [errors], the error of each request that failed.  No latency sent is
    negative, and the worker leaves the histogram and the error map of the
    benchmark alone. *)
Theorem worker_samples_in_order (b : Benchmark) (requester : Requester)
    (ticks : list TickEvent) :
  Setup requester = None ->
  exists b',
    worker b requester ticks =
      Some (b',
            map (fun ev => Z.max 0 (ev_since ev))
                (filter (fun ev => ev_err ev = None) ticks),
            omap ev_err ticks,
            Teardown requester) /\
    Forall (fun latency => 0 <= latency)
      (map (fun ev => Z.max 0 (ev_since ev))
           (filter (fun ev => ev_err ev = None) ticks)) /\
    successHistogram b' = successHistogram b /\
    errors b' = errors b /\
    expectedInterval b' = expectedInterval b /\
    baseLatency b' = baseLatency b.
Proof.
  intros Hsetup. unfold worker. rewrite Hsetup.
  destruct (workerTick_fold_samples b ticks workerStart) as [Hr He].
  rewrite Hr, He. cbn [workerStart w_results w_errors app].
  eexists. split; [reflexivity|].
  split; [|repeat split].
  apply Forall_forall. intros latency Hin.
  apply list_elem_of_fmap in Hin as (ev & -> & _). lia.
Qed.

Lemma worker_samples_in_order_witness :
  exists b',
    worker (benchmarkWithBase 0) plainRequester
      [mkTickEvent 0 1000 None 5000000;
       mkTickEvent (10 * Millisecond) (10 * Millisecond) (Some "timeout"%string) 900;
       mkTickEvent (20 * Millisecond) (20 * Millisecond) None (-3)]
    = Some (b', [5000000; 0], ["timeout"%string], None).
Proof.
  destruct (worker_samples_in_order (benchmarkWithBase 0) plainRequester
      [mkTickEvent 0 1000 None 5000000;
       mkTickEvent (10 * Millisecond) (10 * Millisecond) (Some "timeout"%string) 900;
       mkTickEvent (20 * Millisecond) (20 * Millisecond) None (-3)])
    as (b' & H & _); [reflexivity|].
  exists b'. exact H.
Defined.

(** X7.  A requester that fails in [Setup] makes the run panic: whichever
    worker it is given to, whatever ticks there are and whatever the other
    workers do, the workers do not come through. *)
Theorem failing_Setup_panics (ws : list (Requester * list TickEvent)) (b : Benchmark) :
  Exists (fun w => is_Some (Setup (fst w))) ws ->
  workers b ws = None.
Proof.
  revert b. induction ws as [|[requester ticks] ws IH]; intros b H.
  - inversion H.
  - cbn [workers]. unfold worker. destruct (Setup requester) as [err|] eqn:Es;
      [reflexivity|].
    apply Exists_cons in H as [H|H].
    + cbn in H. rewrite Es in H. destruct H; discriminate.
    + rewrite (IH _ H). reflexivity.
Qed.

Lemma failing_Setup_panics_witness :
  workers (benchmarkWithBase 0)
    [(plainRequester, [mkTickEvent 0 0 None 5]);
     (mkRequester (Some "no route to host"%string) None, [])] = None.
Proof.
  apply failing_Setup_panics.
  apply Exists_cons. right. apply Exists_cons. left. cbn. eexists. reflexivity.
Defined.





(* ================================================================= *)
(** ** The collector, over a whole run *)

Lemma wrap64_add_l (x y : Z) : wrap64 (wrap64 x + y) = wrap64 (x + y).
Proof.
  unfold wrap64. f_equal.
  replace (x + 2^63) with ((x + 2^63)) by reflexivity.
  replace ((x + 2 ^ 63) mod 2 ^ 64 - 2 ^ 63 + y + 2 ^ 63)
    with ((x + 2 ^ 63) mod 2 ^ 64 + y) by lia.
  rewrite Zplus_mod_idemp_l. f_equal. lia.
Qed.

Lemma collectSample_Some (lib : HdrLib) (c c' : Collector) (sample : Z) :
  collectSample lib c sample = Some c' ->
  recorded (successHistogram (col_b c')) =
    wrap64 (sample - baseLatency (col_b c)) :: recorded (successHistogram (col_b c)) /\
  errors (col_b c') = errors (col_b c) /\
  baseLatency (col_b c') = baseLatency (col_b c).
Proof.
  unfold collectSample, RecordValue, Nanoseconds.
  destruct (recordable lib _ _); [|discriminate].
  intros [= <-]. cbn. repeat split.
Qed.

Lemma collectSample_None (lib : HdrLib) (c : Collector) (sample : Z) :
  collectSample lib c sample = None ->
  recordable lib (successHistogram (col_b c))
             (wrap64 (sample - baseLatency (col_b c))) = false.
Proof.
  unfold collectSample, RecordValue, Nanoseconds.
  destruct (recordable lib _ _); [discriminate | reflexivity].
Qed.

Lemma count_snoc (etaken : list string) (err k : string) :
  Z.of_nat (length (filter (fun e => e = k) (etaken ++ [err]))) =
  Z.of_nat (length (filter (fun e => e = k) etaken)) + (if decide (err = k) then 1 else 0).
Proof.
  rewrite filter_app, length_app, filter_cons, filter_nil.
  destruct (decide (err = k)); cbn [length]; lia.
Qed.

(** Every state the collector reaches is a state of progress. *)
Lemma collector_progress (lib : HdrLib) (c0 : Collector) (rs0 : list Z)
    (es0 : list string) (stop0 : bool) (st : CollectorState) :
  (forall k v, errors (col_b c0) !! k = Some v -> minInt64 <= v <= maxInt64) ->
  collectorFunc lib (Collecting c0 (mkChans rs0 es0 stop0)) st ->
  collectorProgress lib c0 rs0 es0 stop0 st.
Proof.
  intros Hint Hrun. unfold collectorFunc in Hrun.
  revert st Hrun.
  apply (rtc_ind_r (fun st => collectorProgress lib c0 rs0 es0 stop0 st));
    [|intros y z Hrun Hstep IH].
  - cbn. exists [], []. cbn. repeat split; try reflexivity.
    + intros k. rewrite Z.add_0_r.
      destruct (errors (col_b c0) !! k) as [v|] eqn:Ek; cbn.
      * symmetry. apply wrap64_small. apply (Hint k v Ek).
      * reflexivity.
    + intros H. left. exact H.
    + intros [H|H]; [exact H | apply elem_of_nil in H; contradiction].
  - inversion Hstep as [c sample rs es stop c' Hcs | c sample rs es stop Hcs
                       | c err rs es stop | c rs es]; subst; cbn in IH |- *.
    + destruct IH as (taken & etaken & Hrs & Hes & Hstop & Hbase & Hrec & Herr & Hdom).
      destruct (collectSample_Some _ _ _ _ Hcs) as (Hr' & He' & Hb').
      exists (taken ++ [sample]), etaken. cbn [ch_results ch_errors ch_stop] in *.
      rewrite Hr', He', Hb', Hrec, Hbase, map_app, rev_app_distr.
      rewrite <- app_assoc. repeat split; try assumption; apply Hdom.
    + destruct IH as (taken & etaken & Hrs & Hes & Hstop & Hbase & Hrec & Herr & Hdom).
      cbn [ch_results] in Hrs.
      exists taken, sample, rs. split; [exact Hrs|].
      exists (successHistogram (col_b c)). split; [|exact Hrec].
      rewrite <- Hbase. apply collectSample_None. exact Hcs.
    + destruct IH as (taken & etaken & Hrs & Hes & Hstop & Hbase & Hrec & Herr & Hdom).
      cbn [ch_results ch_errors ch_stop] in *.
      exists taken, (etaken ++ [err]). unfold collectError.
      cbn [col_b set_errors errors baseLatency successHistogram].
      rewrite <- app_assoc. repeat split; try assumption.
      * intros k. rewrite count_snoc. destruct (decide (err = k)) as [->|Hne].
        -- rewrite lookup_insert_eq.
           lazymatch goal with
           | |- context [default 0 (Some ?v)] => change (default 0 (Some v)) with v
           end.
           rewrite Herr, wrap64_add_l. f_equal. lia.
        -- rewrite lookup_insert_ne by exact Hne. rewrite Herr. f_equal. lia.
      * intros H. destruct (decide (err = k)) as [->|Hne].
        -- right. apply elem_of_app. right. apply list_elem_of_singleton. reflexivity.
        -- rewrite lookup_insert_ne in H by exact Hne. apply Hdom in H as [H|H];
             [left; exact H | right; apply elem_of_app; left; exact H].
      * intros H. destruct (decide (err = k)) as [->|Hne].
        -- rewrite lookup_insert_eq. eexists. reflexivity.
        -- rewrite lookup_insert_ne by exact Hne. apply Hdom.
           destruct H as [H|H]; [left; exact H|]. right.
           apply elem_of_app in H as [H|H]; [exact H|].
           apply list_elem_of_singleton in H. congruence.
    + destruct IH as (taken & etaken & Hrs & Hes & Hstop & Hbase & Hrec & Herr & Hdom).
      cbn [ch_results ch_errors ch_stop] in *. split; [symmetry; exact Hstop|].
      exists taken, etaken. unfold collectDone.
      repeat split; try assumption; apply Hdom.
Qed.

Lemma NewBenchmark_empty (rate conns : Z) (dur base : Duration) (b : Benchmark) :
  NewBenchmark rate conns dur base = Some b ->
  errors b = ∅ /\ recorded (successHistogram b) = [] /\ baseLatency b = base.
Proof.
  unfold NewBenchmark. destruct (rate <=? 0); [discriminate|].
  intros [= <-]. cbn. repeat split.
Qed.

(** X9.  The collector of a new benchmark returns only after
    [stopCollector] is closed.  What it has then taken from [results] is a
    front part of what was sent, the rest is still in the channel, and the
    histogram holds exactly the samples taken, each less the base latency,
    the last one first: one value for each sample taken. *)
Theorem collector_records_what_it_takes (lib : HdrLib) (rate conns : Z)
    (dur base : Duration) (b : Benchmark) (rs : list Z) (es : list string)
    (stop : bool) (b' : Benchmark) (ch' : Chans) :
  NewBenchmark rate conns dur base = Some b ->
  collectorFunc lib (Collecting (collectorStart b) (mkChans rs es stop))
                    (CollectorReturned b' ch') ->
  stop = true /\
  exists taken,
    rs = taken ++ ch_results ch' /\
    recorded (successHistogram b') = rev (map (fun s => wrap64 (s - base)) taken) /\
    TotalCount (successHistogram b') = Z.of_nat (length taken) /\
    TotalCount (successHistogram b') + Z.of_nat (length (ch_results ch'))
      = Z.of_nat (length rs).
Proof.
  intros Hnew Hrun.
  destruct (NewBenchmark_empty _ _ _ _ _ Hnew) as (Hempty & Hhist & Hbase).
  apply collector_progress in Hrun.
  - destruct Hrun as (Hstop & taken & etaken & Hrs & _ & Hrec & _).
    cbn [collectorStart col_b] in Hrec. rewrite Hhist, Hbase, app_nil_r in Hrec.
    split; [exact Hstop|]. exists taken. split; [exact Hrs|]. split; [exact Hrec|].
    unfold TotalCount. rewrite Hrec, length_rev, length_map, Hrs, length_app.
    split; [reflexivity | lia].
  - cbn [collectorStart col_b]. rewrite Hempty. intros k v H.
    rewrite lookup_empty in H. discriminate.
Qed.

Lemma collector_records_what_it_takes_witness :
  exists b',
    collectorFunc rangeLib
      (Collecting (collectorStart (benchmarkWithBase 0))
                  (mkChans [5000000; 7000000] [] true))
      (CollectorReturned b' (mkChans [7000000] [] true)) /\
    TotalCount (successHistogram b') = 1.
Proof.
  destruct (collectSample rangeLib (collectorStart (benchmarkWithBase 0)) 5000000)
    as [c1|] eqn:E1; [|vm_compute in E1; discriminate].
  assert (Hpath : collectorFunc rangeLib
            (Collecting (collectorStart (benchmarkWithBase 0))
                        (mkChans [5000000; 7000000] [] true))
            (CollectorReturned (collectDone c1) (mkChans [7000000] [] true))).
  { eapply rtc_l; [apply step_sample; exact E1|]. apply rtc_once, step_done. }
  exists (collectDone c1). split; [exact Hpath|].
  destruct (collector_records_what_it_takes rangeLib 100 1 (2 * Second) 0
              (benchmarkWithBase 0) [5000000; 7000000] [] true (collectDone c1)
              (mkChans [7000000] [] true))
    as (_ & taken & Hrs & _ & Hcount & Hsum).
  - vm_compute. reflexivity.
  - exact Hpath.
  - cbn [ch_results length] in Hsum. lia.
Defined.

(** X10.  The error map the collector of a new benchmark returns with
    counts what it has taken from [errors]: the errors taken are a front
    part of what was sent; a text that was taken is a key of the map, with
    the number of times it was taken; a text that was not taken is no
    key. *)
Theorem collector_counts_errors (lib : HdrLib) (rate conns : Z)
    (dur base : Duration) (b : Benchmark) (rs : list Z) (es : list string)
    (stop : bool) (b' : Benchmark) (ch' : Chans) :
  NewBenchmark rate conns dur base = Some b ->
  Z.of_nat (length es) <= maxInt64 ->
  collectorFunc lib (Collecting (collectorStart b) (mkChans rs es stop))
                    (CollectorReturned b' ch') ->
  exists etaken,
    es = etaken ++ ch_errors ch' /\
    forall k,
      errors b' !! k =
        if decide (k ∈ etaken)
        then Some (Z.of_nat (length (filter (fun e => e = k) etaken)))
        else None.
Proof.
  intros Hnew Hlen Hrun.
  destruct (NewBenchmark_empty _ _ _ _ _ Hnew) as (Hempty & _ & _).
  apply collector_progress in Hrun.
  - destruct Hrun as (_ & taken & etaken & _ & Hes & _ & Herr & Hdom).
    cbn [collectorStart col_b] in Herr, Hdom. rewrite Hempty in Herr, Hdom.
    exists etaken. split; [exact Hes|]. intros k.
    specialize (Herr k). specialize (Hdom k).
    rewrite lookup_empty in Herr, Hdom. cbn [default from_option] in Herr.
    assert (Hcnt : Z.of_nat (length (filter (fun e => e = k) etaken))
                   <= Z.of_nat (length etaken)).
    { apply inj_le. apply length_filter. }
    assert (Hle : Z.of_nat (length etaken) <= maxInt64).
    { rewrite Hes, length_app in Hlen. lia. }
    rewrite Z.add_0_l, wrap64_small in Herr by (unfold minInt64, maxInt64 in *; lia).
    destruct (decide (k ∈ etaken)) as [Hin|Hnot].
    + destruct (errors b' !! k) as [v|] eqn:Ek.
      * cbn in Herr. rewrite Herr. reflexivity.
      * exfalso. assert (H : is_Some (@None Z)) by (apply Hdom; right; exact Hin).
        destruct H; discriminate.
    + destruct (errors b' !! k) as [v|] eqn:Ek; [|reflexivity].
      exfalso. assert (H : is_Some (Some v)) by (eexists; reflexivity).
      apply Hdom in H as [[? H]|H]; [discriminate | contradiction].
  - cbn [collectorStart col_b]. rewrite Hempty. intros k v H.
    rewrite lookup_empty in H. discriminate.
Qed.

Lemma collector_counts_errors_witness :
  exists b',
    collectorFunc rangeLib
      (Collecting (collectorStart (benchmarkWithBase 0))
                  (mkChans [] ["timeout"%string; "timeout"%string] true))
      (CollectorReturned b' (mkChans [] [] true)) /\
    errors b' !! "timeout"%string = Some 2 /\
    errors b' !! "connection refused"%string = None.
Proof.
  assert (Hpath : collectorFunc rangeLib
            (Collecting (collectorStart (benchmarkWithBase 0))
                        (mkChans [] ["timeout"%string; "timeout"%string] true))
            (CollectorReturned
               (collectDone (collectError (collectError
                  (collectorStart (benchmarkWithBase 0)) "timeout") "timeout"))
               (mkChans [] [] true))).
  { eapply rtc_l; [apply step_error|]. eapply rtc_l; [apply step_error|].
    apply rtc_once, step_done. }
  eexists. split; [exact Hpath|].
  destruct (collector_counts_errors rangeLib 100 1 (2 * Second) 0
              (benchmarkWithBase 0) [] ["timeout"%string; "timeout"%string] true _ _
              ltac:(vm_compute; reflexivity) ltac:(vm_compute; discriminate) Hpath)
    as (etaken & Hes & Hk).
  cbn [ch_errors] in Hes. rewrite app_nil_r in Hes. subst etaken.
  split; [rewrite Hk | rewrite Hk]; reflexivity.
Defined.

(** The collector leaves the bounds and the precision of the histogram
    alone. *)
Lemma collector_histogram (lib : HdrLib) (c0 : Collector) (ch0 : Chans)
    (st : CollectorState) :
  collectorFunc lib (Collecting c0 ch0) st ->
  match st with
  | Collecting c _ =>
      lowestTrackableValue (successHistogram (col_b c))
        = lowestTrackableValue (successHistogram (col_b c0)) /\
      highestTrackableValue (successHistogram (col_b c))
        = highestTrackableValue (successHistogram (col_b c0)) /\
      significantFigures (successHistogram (col_b c))
        = significantFigures (successHistogram (col_b c0))
  | _ => True
  end.
Proof.
  intros Hrun. unfold collectorFunc in Hrun. revert st Hrun.
  apply (rtc_ind_r (fun st => match st with
                              | Collecting c _ => _
                              | _ => True
                              end)); [|intros y z Hrun Hstep IH].
  - repeat split.
  - inversion Hstep as [c sample rs es stop c' Hcs | c sample rs es stop Hcs
                       | c err rs es stop | c rs es]; subst; cbn in IH |- *;
      try exact I; try exact IH.
    unfold collectSample, RecordValue in Hcs.
    destruct (recordable lib _ _); [|discriminate].
    injection Hcs as <-. exact IH.
Qed.

(** X11.  The collector of a new benchmark panics only over a sample its
    histogram refuses: the samples before it were taken and recorded, and
    the histogram of the benchmark, holding exactly those, each less the
    base latency, refused this one less the base latency. *)
Theorem collector_panics_on_refused_sample (lib : HdrLib) (rate conns : Z)
    (dur base : Duration) (b : Benchmark) (rs : list Z) (es : list string)
    (stop : bool) :
  NewBenchmark rate conns dur base = Some b ->
  collectorFunc lib (Collecting (collectorStart b) (mkChans rs es stop))
                    CollectorPanicked ->
  exists taken sample rest,
    rs = taken ++ sample :: rest /\
    recordable lib
      (mkHistogram minRecordableLatencyNS maxRecordableLatencyNS sigFigs
                   (rev (map (fun s => wrap64 (s - base)) taken)))
      (wrap64 (sample - base)) = false.
Proof.
  intros Hnew Hrun.
  destruct (NewBenchmark_empty _ _ _ _ _ Hnew) as (Hempty & Hhist & Hbase).
  assert (Hnewh : successHistogram b
                  = hdrhistogram_New minRecordableLatencyNS maxRecordableLatencyNS sigFigs).
  { unfold NewBenchmark in Hnew. destruct (rate <=? 0); [discriminate|].
    injection Hnew as <-. reflexivity. }
  unfold collectorFunc in Hrun. apply rtc_inv_r in Hrun as [Heq | (y & Hrun & Hstep)];
    [discriminate|].
  inversion Hstep as [| c sample rs' es' stop' Hcs | |]; subst y.
  pose proof (collector_histogram lib _ _ _ Hrun) as (Hlo & Hhi & Hsig).
  apply collector_progress in Hrun.
  - destruct Hrun as (taken & etaken & Hrs & _ & _ & Hb & Hrec & _).
    cbn [collectorStart col_b ch_results] in Hrs, Hb, Hrec, Hlo, Hhi, Hsig.
    rewrite Hhist, Hbase, app_nil_r in Hrec. rewrite Hbase in Hb.
    rewrite Hnewh in Hlo, Hhi, Hsig. cbn in Hlo, Hhi, Hsig.
    apply collectSample_None in Hcs. rewrite Hb in Hcs.
    exists taken, sample, rs'. split; [exact Hrs|].
    rewrite <- Hlo, <- Hhi, <- Hsig, <- Hrec.
    destruct (successHistogram (col_b c)). exact Hcs.
  - cbn [collectorStart col_b]. rewrite Hempty. intros k v H.
    rewrite lookup_empty in H. discriminate.
Qed.

Lemma collector_panics_on_refused_sample_witness :
  exists taken sample rest,
    [5] = taken ++ sample :: rest /\
    recordable rangeLib
      (mkHistogram minRecordableLatencyNS maxRecordableLatencyNS sigFigs
                   (rev (map (fun s => wrap64 (s - 10)) taken)))
      (wrap64 (sample - 10)) = false.
Proof.
  apply (collector_panics_on_refused_sample rangeLib 100 1 (2 * Second) 10
           (benchmarkWithBase 10) [5] [] false).
  - vm_compute. reflexivity.
  - apply rtc_once. apply step_sample_panic. vm_compute. reflexivity.
Defined.

(* ================================================================= *)
(** ** More on the error keys *)

Lemma takeDigits_allDigits (s : string) : allDigits (takeDigits s) = true.
Proof.
  induction s as [|a s IH]; [reflexivity|].
  cbn [takeDigits]. destruct (isDigit a) eqn:E; [|reflexivity].
  cbn [allDigits]. rewrite E, IH. reflexivity.
Qed.

Lemma matchHere_group (s : string) (m : list string) :
  matchHere s = Some m ->
  exists rest, m = [(errorCodeLiteral ++ takeDigits rest)%string; takeDigits rest].
Proof.
  unfold matchHere.
  destruct (stripPrefix errorCodeLiteral s) as [rest|]; [|discriminate].
  destruct (takeDigits rest) as [|c d] eqn:E; [discriminate|].
  intros [= <-]. exists rest. rewrite E. reflexivity.
Qed.

Lemma FindStringSubmatch_group (s : string) :
  FindStringSubmatch s = [] \/
  exists rest,
    FindStringSubmatch s = [(errorCodeLiteral ++ takeDigits rest)%string; takeDigits rest].
Proof.
  induction s as [|a s IH]; [left; reflexivity|].
  cbn [FindStringSubmatch].
  destruct (matchHere (String a s)) as [m|] eqn:Em; [|exact IH].
  right. apply matchHere_group in Em as [rest ->]. exists rest. reflexivity.
Qed.

(** The key of a text is the text itself or a run of digits. *)
Lemma errorKey_digits (text : string) :
  errorKey text = text \/ allDigits (errorKey text) = true.
Proof.
  unfold errorKey.
  destruct (FindStringSubmatch_group text) as [-> | [rest ->]].
  - left. reflexivity.
  - right. cbn. apply takeDigits_allDigits.
Qed.

(** X12.  Filing is idempotent: the key of a key is the key itself, so the
    keys of a summary are settled and a second pass would change none. *)
Theorem errorKey_idempotent (text : string) :
  errorKey (errorKey text) = errorKey text.
Proof.
  destruct (errorKey_digits text) as [H | Hd]; [rewrite H; exact H|].
  unfold errorKey at 1.
  rewrite (FindStringSubmatch_noCapitalE _ (allDigits_noCapitalE _ Hd)).
  reflexivity.
Qed.

Lemma stripPrefix_app (p s : string) : stripPrefix p (p ++ s) = Some s.
Proof.
  induction p as [|a p IH]; [destruct s; reflexivity|].
  rewrite append_String. cbn [stripPrefix]. rewrite Ascii.eqb_refl. exact IH.
Qed.

Lemma takeDigits_app (code rest : string) :
  allDigits code = true -> noLeadingDigit rest = true ->
  takeDigits (code ++ rest) = code.
Proof.
  intros Hc Hr. induction code as [|a code IH].
  - rewrite append_empty. destruct rest as [|c rest]; [reflexivity|].
    cbn in Hr |- *. apply negb_true_iff in Hr. rewrite Hr. reflexivity.
  - cbn in Hc. apply andb_true_iff in Hc as [Ha Hc].
    rewrite append_String. cbn [takeDigits]. rewrite Ha, (IH Hc). reflexivity.
Qed.

Lemma FindStringSubmatch_skip (pre s : string) :
  noCapitalE pre = true ->
  FindStringSubmatch (pre ++ s) = FindStringSubmatch s.
Proof.
  induction pre as [|a pre IH]; intros H.
  - rewrite append_empty. reflexivity.
  - cbn in H. apply andb_true_iff in H as [Ha Hp].
    rewrite append_String. cbn [FindStringSubmatch].
    destruct (matchHere (String a (pre ++ s))) as [m|] eqn:Em.
    + apply matchHere_head in Em as [s' [= -> _]]. discriminate.
    + apply IH. exact Hp.
Qed.

Lemma itoa_nonneg_allDigits (n : Z) : 0 <= n -> allDigits (itoa n) = true.
Proof.
  intros Hn. unfold itoa. destruct n as [|p|p]; [reflexivity | | lia].
  cbn [Z.to_int NilZero.string_of_int].
  destruct (Pos.to_uint p) eqn:E; cbn; try reflexivity; apply string_of_uint_allDigits.
Qed.

Lemma itoa_nonempty (n : Z) : itoa n <> EmptyString.
Proof.
  pose proof (itoa_decimalText n) as H. destruct (itoa n); [discriminate|].
  discriminate.
Qed.

(** X13.  A text that says ["Expected 200-response, but got <n>"] for a
    status code [n >= 0] is filed under the decimal text of [n], whatever
    stands before the phrase, as long as it holds no capital E, and
    whatever follows the number, as long as it does not go on with a
    digit. *)
Theorem errorKey_of_status_text (pre rest : string) (n : Z) :
  0 <= n ->
  noCapitalE pre = true ->
  noLeadingDigit rest = true ->
  errorKey (pre ++ "Expected 200-response, but got " ++ itoa n ++ rest) = itoa n.
Proof.
  intros Hn Hpre Hrest. unfold errorKey.
  rewrite (FindStringSubmatch_skip pre _ Hpre).
  assert (Hm : matchHere ("Expected 200-response, but got " ++ itoa n ++ rest) =
               Some [(errorCodeLiteral ++ itoa n)%string; itoa n]).
  { unfold matchHere. fold errorCodeLiteral. rewrite stripPrefix_app.
    rewrite (takeDigits_app _ _ (itoa_nonneg_allDigits n Hn) Hrest).
    pose proof (itoa_nonempty n). destruct (itoa n); [contradiction | reflexivity]. }
  assert (Hf : FindStringSubmatch ("Expected 200-response, but got " ++ itoa n ++ rest) =
               [(errorCodeLiteral ++ itoa n)%string; itoa n]).
  { change ("Expected 200-response, but got " ++ itoa n ++ rest)%string
      with (String "E" ("xpected 200-response, but got " ++ itoa n ++ rest))%string in *.
    cbn [FindStringSubmatch]. rewrite Hm. reflexivity. }
  rewrite Hf. reflexivity.
Qed.

Lemma errorKey_of_status_text_witness :
  errorKey "upstream x9: Expected 200-response, but got 503 (try 2)" = "503"%string.
Proof.
  apply (errorKey_of_status_text "upstream x9: " " (try 2)" 503); [lia | reflexivity | reflexivity].
Defined.

Lemma formatErrors_lookup_Some (order : list (string * Z)) (k : string) (v : Z) :
  formatErrors order !! k = Some v ->
  exists text, (text, v) ∈ order /\ errorKey text = k.
Proof.
  induction order as [|[t c] order IH] using rev_ind.
  - unfold formatErrors. cbn. rewrite lookup_empty. discriminate.
  - rewrite formatErrors_snoc. cbn [fst snd].
    destruct (decide (errorKey t = k)) as [Heq|Hne].
    + rewrite Heq, lookup_insert_eq. intros [= <-].
      exists t. split; [|exact Heq].
      apply elem_of_app. right. apply list_elem_of_singleton. reflexivity.
    + rewrite lookup_insert_ne by exact Hne. intros H.
      destruct (IH H) as (text & Hin & Hk). exists text. split; [|exact Hk].
      apply elem_of_app. left. exact Hin.
Qed.

Lemma formatErrors_lookup_is_Some (order : list (string * Z)) (text : string) (v : Z) :
  (text, v) ∈ order -> is_Some (formatErrors order !! errorKey text).
Proof.
  induction order as [|[t c] order IH] using rev_ind; intros Hin.
  - apply elem_of_nil in Hin. contradiction.
  - rewrite formatErrors_snoc. cbn [fst snd].
    destruct (decide (errorKey t = errorKey text)) as [Heq|Hne].
    + rewrite Heq, lookup_insert_eq. eexists. reflexivity.
    + rewrite lookup_insert_ne by exact Hne. apply IH.
      apply elem_of_app in Hin as [Hin|Hin]; [exact Hin|].
      apply list_elem_of_singleton in Hin. injection Hin as -> ->. contradiction.
Qed.

Lemma formatErrors_size (order : list (string * Z)) :
  (size (formatErrors order) <= length order)%nat.
Proof.
  induction order as [|[t c] order IH] using rev_ind.
  - unfold formatErrors. cbn. rewrite map_size_empty. lia.
  - rewrite formatErrors_snoc, length_app, map_size_insert. cbn [length fst snd].
    destruct (formatErrors order !! errorKey t); unfold id; lia.
Qed.

(** X14.  The buckets of a summary come from the error texts and from
    nowhere else: every text has its key among the buckets; every bucket
    is the key of a text of the map and holds the count of such a text;
    so there are never more buckets than texts, and none when there was
    no error. *)
Theorem formatErrors_buckets (order : list (string * Z)) :
  (forall text count, (text, count) ∈ order ->
                      is_Some (formatErrors order !! errorKey text)) /\
  (forall key count, formatErrors order !! key = Some count ->
                     exists text, (text, count) ∈ order /\ errorKey text = key) /\
  (size (formatErrors order) <= length order)%nat /\
  (order = [] <-> formatErrors order = ∅).
Proof.
  split; [intros text count; apply formatErrors_lookup_is_Some|].
  split; [intros key count; apply formatErrors_lookup_Some|].
  split; [apply formatErrors_size|].
  split; [intros ->; reflexivity|].
  intros Hempty. destruct order as [|[t c] order]; [reflexivity|].
  exfalso.
  destruct (formatErrors_lookup_is_Some ((t, c) :: order) t c (list_elem_of_here _ _))
    as [v Hv].
  rewrite Hempty, lookup_empty in Hv. discriminate.
Qed.

(** X15.  When no error text of a run holds a match of the pattern, as
    with the errors of the bundled [webRequester], the summary has the
    error map as it is, whatever the order in which it is visited. *)
Theorem formatErrors_without_match (b : Benchmark) (order : list (string * Z))
    (outputJson : bool) :
  MapRange (errors b) order ->
  (forall text, is_Some (errors b !! text) -> FindStringSubmatch text = []) ->
  Errors (summarize b order outputJson) = errors b.
Proof.
  intros Hrange Hnone. cbn [summarize Errors].
  assert (Hkey : forall text count, (text, count) ∈ order -> errorKey text = text).
  { intros text count Hin. unfold errorKey. rewrite Hnone; [reflexivity|].
    exists count. apply (MapRange_elem _ _ _ _ Hrange). exact Hin. }
  apply map_eq. intros k.
  destruct (errors b !! k) as [v|] eqn:Ek.
  - pose proof (proj2 (MapRange_elem _ _ k v Hrange) Ek) as Hin.
    rewrite <- (Hkey k v Hin) at 1.
    apply formatErrors_lookup_unshared; [apply (MapRange_NoDup _ _ Hrange) | exact Hin |].
    intros text' count' Hin' Hne.
    rewrite (Hkey text' count' Hin'), (Hkey k v Hin). exact Hne.
  - destruct (formatErrors order !! k) as [v|] eqn:Ef; [|reflexivity].
    exfalso. apply formatErrors_lookup_Some in Ef as (text & Hin & Hk).
    rewrite (Hkey text v Hin) in Hk. subst text.
    apply (MapRange_elem _ _ _ _ Hrange) in Hin. congruence.
Qed.

Lemma formatErrors_without_match_witness :
  Errors (summarize
            (set_errors (benchmarkWithBase 0)
               (<["Expected 200 got 503"%string := 3]> {["timeout"%string := 1]}))
            [("timeout"%string, 1); ("Expected 200 got 503"%string, 3)] false)
  = <["Expected 200 got 503"%string := 3]> {["timeout"%string := 1]}.
Proof.
  assert (H1 : MapRange
                 (errors (set_errors (benchmarkWithBase 0)
                    (<["Expected 200 got 503"%string := 3]> {["timeout"%string := 1]})))
                 [("timeout"%string, 1); ("Expected 200 got 503"%string, 3)]).
  { unfold MapRange. cbn [errors set_errors].
    rewrite map_to_list_insert by (apply lookup_singleton_ne; discriminate).
    rewrite map_to_list_singleton. apply perm_swap. }
  assert (H2 : forall text,
             is_Some (errors (set_errors (benchmarkWithBase 0)
                        (<["Expected 200 got 503"%string := 3]> {["timeout"%string := 1]}))
                      !! text) ->
             FindStringSubmatch text = []).
  { cbn [errors set_errors]. intros text [v H].
    apply lookup_insert_Some in H as [[<- _]|[_ H]]; [reflexivity|].
    apply lookup_singleton_Some in H as [<- _]. reflexivity. }
  exact (formatErrors_without_match _ _ false H1 H2).
Defined.

(* ================================================================= *)
(** ** The distribution file when the file system fails *)

Lemma os_Create_cases (d : Disk) (name : string) :
  (exists fs, faults d = true :: fs /\
              os_Create d name = (mkDisk (files d) fs, Some ("open " ++ name)%string)) \/
  (exists fs, (faults d = false :: fs \/ (faults d = [] /\ fs = [])) /\
              os_Create d name = (mkDisk (<[name := ""%string]> (files d)) fs, None)).
Proof.
  unfold os_Create, nextFault. destruct d as [fl [|[|] fs]]; cbn.
  - right. exists []. split; [right; split; reflexivity | reflexivity].
  - left. exists fs. split; reflexivity.
  - right. exists fs. split; [left; reflexivity | reflexivity].
Qed.

Lemma WriteString_cases (d : Disk) (name s : string) :
  (exists fs, faults d = true :: fs /\
              WriteString d name s = (mkDisk (files d) fs, Some ("write " ++ name)%string)) \/
  (exists fs, (faults d = false :: fs \/ (faults d = [] /\ fs = [])) /\
              WriteString d name s =
                (mkDisk (<[name := (default "" (files d !! name) ++ s)%string]> (files d)) fs,
                 None)).
Proof.
  unfold WriteString, nextFault. destruct d as [fl [|[|] fs]]; cbn.
  - right. exists []. split; [right; split; reflexivity | reflexivity].
  - left. exists fs. split; reflexivity.
  - right. exists fs. split; [left; reflexivity | reflexivity].
Qed.

(** Whatever fails, the loop of the rows writes to its own file only. *)
Lemma writeRows_frame (lib : HdrLib) (fmt : FmtLib) (file : string) (h : Histogram)
    (ps : list float) :
  forall (d : Disk) (name : string),
    name <> file ->
    files (fst (writeRows lib fmt d file h ps)) !! name = files d !! name.
Proof.
  induction ps as [|p ps IH]; intros d name Hne; [reflexivity|].
  cbn [writeRows].
  destruct (WriteString_cases d file (distributionRow lib fmt h p))
    as [(fs & _ & ->) | (fs & _ & ->)].
  - reflexivity.
  - rewrite IH by exact Hne. cbn [files]. apply lookup_insert_ne. congruence.
Qed.

(** The loop of the rows when its write number [k] (from 0) is the first
    to fail: the rows before it are in the file, the error is returned. *)
Lemma writeRows_partial (lib : HdrLib) (fmt : FmtLib) (file : string) (h : Histogram)
    (k : nat) :
  forall (ps : list float) (d : Disk) (content : string) (fs : list bool),
    faults d = replicate k false ++ true :: fs ->
    (k < length ps)%nat ->
    files d !! file = Some content ->
    writeRows lib fmt d file h ps =
      (mkDisk (<[file := (content ++ joinRows (map (distributionRow lib fmt h) (take k ps)))%string]>
                 (files d)) fs,
       Some ("write " ++ file)%string).
Proof.
  induction k as [|k IH]; intros ps d content fs Hf Hk Hc.
  - destruct ps as [|p ps]; [cbn in Hk; lia|].
    cbn [writeRows take map joinRows fold_right].
    unfold WriteString, nextFault. rewrite Hf. cbn.
    rewrite append_nil_r, (insert_id _ _ _ Hc). reflexivity.
  - destruct ps as [|p ps]; [cbn in Hk; lia|].
    cbn [writeRows take map joinRows fold_right].
    unfold WriteString at 1. unfold nextFault. rewrite Hf. cbn [replicate app].
    cbn [files faults]. rewrite Hc. cbn [default from_option id].
    rewrite (IH ps _ (content ++ distributionRow lib fmt h p)%string fs);
      [| reflexivity | cbn in Hk; lia | apply lookup_insert_eq].
    cbn [files]. rewrite insert_insert_eq, append_assoc. reflexivity.
Qed.

(** X16.  When [os.Create] and the write of the header go through and the
    write of row number [k] (from 0) is the first to fail,
    [generateLatencyDistribution] returns that error at once: the file is
    left with the header and the [k] rows before, and the [.uncorrected]
    file is not touched. *)
Theorem distribution_file_cut_short (lib : HdrLib) (fmt : FmtLib) (d : Disk)
    (histogram : Histogram) (unHistogram : option Histogram) (rate : float)
    (percentiles : Percentiles) (file : string) (k : nat) (fs : list bool) :
  faults d = [false; false] ++ replicate k false ++ true :: fs ->
  (k < length (match percentiles with None => Logarithmic | Some ps => ps end))%nat ->
  exists d' err,
    generateLatencyDistribution lib fmt d histogram unHistogram rate percentiles file
      = (d', Some err) /\
    files d' !! file =
      Some (distributionHeader
            ++ joinRows (map (distributionRow lib fmt histogram)
                             (take k (match percentiles with
                                      | None => Logarithmic
                                      | Some ps => ps
                                      end))))%string /\
    files d' !! (file ++ ".uncorrected")%string = files d !! (file ++ ".uncorrected")%string /\
    faults d' = fs.
Proof.
  intros Hf Hk. unfold generateLatencyDistribution.
  set (ps := match percentiles with None => Logarithmic | Some ps => ps end) in *.
  unfold os_Create, nextFault. rewrite Hf. cbn [app].
  unfold WriteString at 1. unfold nextFault. cbn [faults files fst].
  rewrite lookup_insert_eq. cbn [default from_option id fst].
  rewrite (writeRows_partial lib fmt file histogram k ps _ ("" ++ distributionHeader)%string fs);
    [| reflexivity | exact Hk | apply lookup_insert_eq].
  eexists. eexists. split; [reflexivity|]. cbn [files faults].
  rewrite !insert_insert_eq. split; [apply lookup_insert_eq|].
  split; [|reflexivity].
  apply lookup_insert_ne. intros H. symmetry in H.
  apply (uncorrected_is_another_file file H).
Qed.

Lemma distribution_file_cut_short_witness :
  exists d' err,
    generateLatencyDistribution rangeLib opaqueFmt (mkDisk ∅ [false; false; false; true])
      (hdrhistogram_New minRecordableLatencyNS maxRecordableLatencyNS sigFigs)
      None 100%float (Some [50; 99; 100]%float) "out/res.hgrm"
      = (d', Some err) /\
    files d' !! "out/res.hgrm"%string =
      Some (distributionHeader ++ "?    ?        0            ?" ++ String "010" "")%string.
Proof.
  destruct (distribution_file_cut_short rangeLib opaqueFmt
              (mkDisk ∅ [false; false; false; true])
              (hdrhistogram_New minRecordableLatencyNS maxRecordableLatencyNS sigFigs)
              None 100%float (Some [50; 99; 100]%float) "out/res.hgrm" 1 [])
    as (d' & err & Hrun & Hfile & _).
  - reflexivity.
  - cbn. lia.
  - exists d', err. split; [exact Hrun|]. rewrite Hfile. reflexivity.
Defined.

(** X17.  When the write of the header fails and every later call goes
    through, [generateLatencyDistribution] does not notice: it returns no
    error, and the file holds the rows without the header. *)
Theorem distribution_header_failure_is_silent (lib : HdrLib) (fmt : FmtLib) (d : Disk)
    (histogram : Histogram) (rate : float) (percentiles : Percentiles) (file : string) :
  faults d = [false; true] ->
  exists d',
    generateLatencyDistribution lib fmt d histogram None rate percentiles file
      = (d', None) /\
    files d' !! file =
      Some (joinRows (map (distributionRow lib fmt histogram)
                          (match percentiles with
                           | None => Logarithmic
                           | Some ps => ps
                           end))).
Proof.
  intros Hf. unfold generateLatencyDistribution.
  set (ps := match percentiles with None => Logarithmic | Some ps => ps end).
  unfold os_Create, nextFault. rewrite Hf.
  unfold WriteString at 1. unfold nextFault. cbn [faults files fst].
  rewrite (writeRows_ok lib fmt file histogram ps _ ""%string);
    [| reflexivity | apply lookup_insert_eq].
  eexists. split; [reflexivity|]. cbn [files].
  rewrite insert_insert_eq. apply lookup_insert_eq.
Qed.

Lemma distribution_header_failure_is_silent_witness :
  exists d',
    generateLatencyDistribution rangeLib opaqueFmt (mkDisk ∅ [false; true])
      (hdrhistogram_New minRecordableLatencyNS maxRecordableLatencyNS sigFigs)
      None 100%float (Some [99]%float) "out/res.hgrm"
      = (d', None) /\
    files d' !! "out/res.hgrm"%string =
      Some ("?    ?        0            ?" ++ String "010" "")%string.
Proof.
  destruct (distribution_header_failure_is_silent rangeLib opaqueFmt
              (mkDisk ∅ [false; true])
              (hdrhistogram_New minRecordableLatencyNS maxRecordableLatencyNS sigFigs)
              100%float (Some [99]%float) "out/res.hgrm")
    as (d' & Hrun & Hfile); [reflexivity|].
  exists d'. split; [exact Hrun|]. rewrite Hfile. reflexivity.
Defined.

(** Whatever fails, [generateLatencyDistribution] changes its own file
    and, given an uncorrected histogram, the [.uncorrected] file, and no
    other. *)
Lemma generateLatencyDistribution_frame (lib : HdrLib) (fmt : FmtLib) (d : Disk)
    (histogram : Histogram) (unHistogram : option Histogram) (rate : float)
    (percentiles : Percentiles) (file name : string) :
  name <> file ->
  unHistogram = None \/ name <> (file ++ ".uncorrected")%string ->
  files (fst (generateLatencyDistribution lib fmt d histogram unHistogram rate
                percentiles file)) !! name
  = files d !! name.
Proof.
  intros Hne Hun. unfold generateLatencyDistribution.
  set (ps := match percentiles with None => Logarithmic | Some ps => ps end).
  destruct (os_Create_cases d file) as [(fs & _ & ->) | (fs & _ & ->)]; [reflexivity|].
  set (d1 := mkDisk (<[file := ""%string]> (files d)) fs).
  assert (H1 : files d1 !! name = files d !! name).
  { unfold d1. cbn [files]. apply lookup_insert_ne. congruence. }
  set (d2 := fst (WriteString d1 file distributionHeader)).
  assert (H2 : files d2 !! name = files d !! name).
  { unfold d2. destruct (WriteString_cases d1 file distributionHeader)
      as [(fs' & _ & ->) | (fs' & _ & ->)]; cbn [fst files]; [exact H1|].
    rewrite lookup_insert_ne by congruence. exact H1. }
  pose proof (writeRows_frame lib fmt file histogram ps d2 name Hne) as H3.
  destruct (writeRows lib fmt d2 file histogram ps) as [d3 [err|]] eqn:E3;
    cbn [fst] in H3 |- *; [rewrite H3; exact H2|].
  destruct unHistogram as [un|]; [|cbn [fst]; rewrite H3; exact H2].
  destruct Hun as [Hun|Hun]; [discriminate|].
  destruct (0 <? rate)%float; [|cbn [fst]; rewrite H3; exact H2].
  destruct (os_Create_cases d3 (file ++ ".uncorrected")%string)
    as [(fs4 & _ & ->) | (fs4 & _ & ->)]; [cbn [fst files]; rewrite H3; exact H2|].
  set (d4 := mkDisk (<[(file ++ ".uncorrected")%string := ""%string]> (files d3)) fs4).
  assert (H4 : files d4 !! name = files d !! name).
  { unfold d4. cbn [files]. rewrite lookup_insert_ne by congruence.
    rewrite H3. exact H2. }
  set (d5 := fst (WriteString d4 (file ++ ".uncorrected")%string distributionHeader)).
  assert (H5 : files d5 !! name = files d !! name).
  { unfold d5. destruct (WriteString_cases d4 (file ++ ".uncorrected")%string
                           distributionHeader)
      as [(fs' & _ & ->) | (fs' & _ & ->)]; cbn [fst files]; [exact H4|].
    rewrite lookup_insert_ne by congruence. exact H4. }
  rewrite (writeRows_frame lib fmt (file ++ ".uncorrected")%string un ps d5 name Hun).
  exact H5.
Qed.

(** X18.  Whatever calls of the file system fail,
    [generateLatencyDistribution] changes no file but the one it is asked
    to write and, when it is given an uncorrected histogram, the
    [.uncorrected] file beside it; and when [os.Create] fails on the file
    itself, it returns the error with no file changed at all. *)
Theorem distribution_writes_its_files_only (lib : HdrLib) (fmt : FmtLib) (d : Disk)
    (histogram : Histogram) (unHistogram : option Histogram) (rate : float)
    (percentiles : Percentiles) (file : string) :
  (forall name,
     name <> file ->
     unHistogram = None \/ name <> (file ++ ".uncorrected")%string ->
     files (fst (generateLatencyDistribution lib fmt d histogram unHistogram rate
                   percentiles file)) !! name
     = files d !! name) /\
  (forall fs,
     faults d = true :: fs ->
     generateLatencyDistribution lib fmt d histogram unHistogram rate percentiles file
     = (mkDisk (files d) fs, Some ("open " ++ file)%string)).
Proof.
  split.
  - intros name Hne Hun. apply generateLatencyDistribution_frame; assumption.
  - intros fs Hf. unfold generateLatencyDistribution, os_Create, nextFault.
    rewrite Hf. reflexivity.
Qed.

(** X19.  When no call of the file system fails and an uncorrected
    histogram is given: with a request rate above zero the [.uncorrected]
    file is written beside the file, with the header and the rows of the
    uncorrected histogram for the same percentiles; with a rate that is
    not above zero no such file is written. *)
Theorem distribution_uncorrected_file (lib : HdrLib) (fmt : FmtLib) (d : Disk)
    (histogram un : Histogram) (rate : float) (percentiles : Percentiles)
    (file : string) :
  faults d = [] ->
  exists d',
    generateLatencyDistribution lib fmt d histogram (Some un) rate percentiles file
      = (d', None) /\
    files d' !! (file ++ ".uncorrected")%string =
      if (0 <? rate)%float
      then Some (distributionHeader
                 ++ joinRows (map (distributionRow lib fmt un)
                                  (match percentiles with
                                   | None => Logarithmic
                                   | Some ps => ps
                                   end)))%string
      else files d !! (file ++ ".uncorrected")%string.
Proof.
  intros Hf. unfold generateLatencyDistribution.
  set (ps := match percentiles with None => Logarithmic | Some ps => ps end).
  rewrite (os_Create_ok d file Hf).
  rewrite (WriteString_ok _ file distributionHeader ""%string);
    [| reflexivity | apply lookup_insert_eq].
  cbn [fst files].
  rewrite (writeRows_ok lib fmt file histogram ps _ ("" ++ distributionHeader)%string);
    [| reflexivity | apply lookup_insert_eq].
  cbn [files]. rewrite !insert_insert_eq.
  destruct (0 <? rate)%float.
  - rewrite (os_Create_ok _ (file ++ ".uncorrected")%string) by reflexivity.
    rewrite (WriteString_ok _ (file ++ ".uncorrected")%string distributionHeader ""%string);
      [| reflexivity | apply lookup_insert_eq].
    cbn [fst files].
    rewrite (writeRows_ok lib fmt (file ++ ".uncorrected")%string un ps _
               ("" ++ distributionHeader)%string);
      [| reflexivity | apply lookup_insert_eq].
    eexists. split; [reflexivity|]. cbn [files]. apply lookup_insert_eq.
  - eexists. split; [reflexivity|]. cbn [files].
    apply lookup_insert_ne. intros H. symmetry in H.
    apply (uncorrected_is_another_file file H).
Qed.

Lemma distribution_uncorrected_file_witness :
  exists d',
    generateLatencyDistribution rangeLib opaqueFmt (mkDisk ∅ [])
      (hdrhistogram_New minRecordableLatencyNS maxRecordableLatencyNS sigFigs)
      (Some (hdrhistogram_New minRecordableLatencyNS maxRecordableLatencyNS sigFigs))
      100%float (Some [99]%float) "res.hgrm" = (d', None) /\
    files d' !! "res.hgrm.uncorrected"%string =
      Some (distributionHeader ++ "?    ?        0            ?" ++ String "010" "")%string.
Proof.
  destruct (distribution_uncorrected_file rangeLib opaqueFmt (mkDisk ∅ [])
              (hdrhistogram_New minRecordableLatencyNS maxRecordableLatencyNS sigFigs)
              (hdrhistogram_New minRecordableLatencyNS maxRecordableLatencyNS sigFigs)
              100%float (Some [99]%float) "res.hgrm")
    as (d' & Hrun & Hfile); [reflexivity|].
  exists d'. split; [exact Hrun|].
  change ("res.hgrm" ++ ".uncorrected")%string with "res.hgrm.uncorrected"%string in Hfile.
  rewrite Hfile. reflexivity.
Defined.

(** X23.  [Summary.GenerateLatencyDistribution] passes no uncorrected
    histogram on: whatever the request rate of the summary and whatever
    calls of the file system fail, it changes no file but the one it is
    asked to write, and the [.uncorrected] file beside it is never
    written. *)
Theorem GenerateLatencyDistribution_one_file (lib : HdrLib) (fmt : FmtLib) (d : Disk)
    (s : Summary) (percentiles : Percentiles) (file : string) :
  (forall name, name <> file ->
     files (fst (GenerateLatencyDistribution lib fmt d s percentiles file)) !! name
     = files d !! name) /\
  files (fst (GenerateLatencyDistribution lib fmt d s percentiles file))
    !! (file ++ ".uncorrected")%string
  = files d !! (file ++ ".uncorrected")%string.
Proof.
  assert (H : forall name, name <> file ->
     files (fst (GenerateLatencyDistribution lib fmt d s percentiles file)) !! name
     = files d !! name).
  { intros name Hne. unfold GenerateLatencyDistribution.
    apply generateLatencyDistribution_frame; [exact Hne | left; reflexivity]. }
  split; [exact H|]. apply H, uncorrected_is_another_file.
Qed.

(* ================================================================= *)
(** ** The requester: rotation of the URLs and the host headers *)

Lemma wrap32_small (z : Z) : - 2^31 <= z < 2^31 -> wrap32 z = z.
Proof. intros H. unfold wrap32. rewrite Z.mod_small by lia. lia. Qed.

Lemma rotate_turn (s : list string) (i : Z) :
  0 < Z.of_nat (length s) < 2^31 -> 0 <= i < 2^31 ->
  exists x, s !! Z.to_nat (i mod Z.of_nat (length s)) = Some x /\ rotate s i = Some x.
Proof.
  intros Hn Hi. unfold rotate. rewrite wrap32_small by lia.
  destruct (Z.of_nat (length s) =? 0) eqn:E0; [apply Z.eqb_eq in E0; lia|].
  rewrite Z.rem_mod_nonneg by lia.
  pose proof (Z.mod_pos_bound i (Z.of_nat (length s)) ltac:(lia)) as Hm.
  destruct (i mod Z.of_nat (length s) <? 0) eqn:En; [apply Z.ltb_lt in En; lia|].
  destruct (lookup_lt_is_Some_2 s (Z.to_nat (i mod Z.of_nat (length s)))) as [x Hx]; [lia|].
  exists x. split; exact Hx.
Qed.

(** X20.  The requests take the URLs in turn.  The counter starts at -1,
    so the request number [i] (from 0, below [2^31]) finds it at [i - 1]:
    with a list of URLs it goes to the URL number [i mod n] of the [n] and
    leaves the counter at [i]; with a list of hosts and a URL that parses,
    it goes to that URL with the host number [i mod n]; with neither list
    it goes to the URL and leaves the counter alone. *)
Theorem requests_take_turns (net : NetLib) (w : webRequesterFields) (i : Z) :
  0 <= i < 2^31 ->
  (forall us, urls w = Some us -> 0 < Z.of_nat (length us) < 2^31 ->
     exists u, us !! Z.to_nat (i mod Z.of_nat (length us)) = Some u /\
               selectURL net w (i - 1) = (PickURL u, i)) /\
  (forall hs, urls w = None -> hosts w = Some hs -> url_Parse net (url w) = None ->
     0 < Z.of_nat (length hs) < 2^31 ->
     exists h, hs !! Z.to_nat (i mod Z.of_nat (length hs)) = Some h /\
               selectURL net w (i - 1) = (PickURL (with_Host net (url w) h), i)) /\
  (urls w = None -> hosts w = None ->
     selectURL net w (i - 1) = (PickURL (url w), i - 1)).
Proof.
  intros Hi.
  assert (Hw : wrap32 (i - 1 + 1) = i) by (rewrite wrap32_small; lia).
  split; [|split].
  - intros us Hu Hn. destruct (rotate_turn us i Hn Hi) as (u & Hlook & Hrot).
    exists u. split; [exact Hlook|]. unfold selectURL. rewrite Hu, Hw, Hrot. reflexivity.
  - intros hs Hu Hh Hparse Hn. destruct (rotate_turn hs i Hn Hi) as (h & Hlook & Hrot).
    exists h. split; [exact Hlook|].
    unfold selectURL. rewrite Hu, Hh, Hparse, Hw, Hrot. reflexivity.
  - intros Hu Hh. unfold selectURL. rewrite Hu, Hh. reflexivity.
Qed.

Lemma requests_take_turns_witness :
  selectURL plainNet
    (mkWebRequesterFields "" (Some ["http://a/"%string; "http://b/"%string; "http://c/"%string])
       None ∅ "" (mkWebRequester 200) "GET") 3
  = (PickURL "http://b/", 4).
Proof.
  destruct (requests_take_turns plainNet
    (mkWebRequesterFields "" (Some ["http://a/"%string; "http://b/"%string; "http://c/"%string])
       None ∅ "" (mkWebRequester 200) "GET") 4) as (H & _); [lia|].
  destruct (H _ eq_refl) as (u & Hu & Hsel); [cbn; lia|].
  cbn in Hu. injection Hu as <-. exact Hsel.
Defined.

(** X21.  Two ways for [Request] to panic over its list of URLs.  A list
    that is there but empty makes every request panic (a division by
    zero).  And the counter is an [int32]: the request that finds it at
    [2^31 - 1] wraps it to [-2^31], and unless the number of URLs divides
    [2^31] the remainder is negative and the request panics (an index out
    of range). *)
Theorem rotation_panics (net : NetLib) (w : webRequesterFields)
    (doErr : option string) (status : option Z) :
  (forall next, urls w = Some [] ->
     fst (RequestAll net w next doErr status) = None) /\
  (forall us, urls w = Some us -> 0 < Z.of_nat (length us) < 2^31 ->
     2^31 mod Z.of_nat (length us) <> 0 ->
     fst (RequestAll net w (2^31 - 1) doErr status) = None).
Proof.
  split.
  - intros next Hu. unfold RequestAll, selectURL. rewrite Hu. reflexivity.
  - intros us Hu Hn Hdiv. unfold RequestAll, selectURL. rewrite Hu.
    assert (Hrot : rotate us (wrap32 (2^31 - 1 + 1)) = None).
    { change (wrap32 (2^31 - 1 + 1)) with (- 2^31).
      unfold rotate. rewrite wrap32_small by lia.
      destruct (Z.of_nat (length us) =? 0) eqn:E0; [reflexivity|].
      rewrite Z.rem_opp_l by lia. rewrite Z.rem_mod_nonneg by lia.
      pose proof (Z.mod_pos_bound (2^31) (Z.of_nat (length us)) ltac:(lia)) as Hm.
      destruct (- (2^31 mod Z.of_nat (length us)) <? 0) eqn:En; [reflexivity|].
      apply Z.ltb_ge in En. lia. }
    rewrite Hrot. reflexivity.
Qed.

Lemma hostHeader_fmap (net : NetLib) (hs : gmap string string) :
  hostHeader ((fun val => [os_ExpandEnv net val]) <$> hs) =
    match hs !! "host"%string with
    | Some val => HostIs (os_ExpandEnv net val)
    | None =>
        match hs !! "Host"%string with
        | Some val => HostIs (os_ExpandEnv net val)
        | None => HostUnset
        end
    end.
Proof.
  unfold hostHeader. rewrite !lookup_fmap.
  destruct (hs !! "host"%string); cbn; [reflexivity|].
  destruct (hs !! "Host"%string); reflexivity.
Qed.

(** X22.  The requesters of a factory that has not been asked before.
    The headers are expanded once, at the first call of [GetRequester],
    each to a single value: so a requester of the factory never fails
    with "multiple host headers are not allowed"; its host is the
    expanded ["host"] header when there is one, else the expanded
    ["Host"] header, else it is not set; and a later call hands out the
    same headers. *)
Theorem factory_host_header (net : NetLib) (f f' : WebRequesterFactory)
    (w : webRequesterFields) :
  expandedHeaders f = None ->
  GetRequester net f = Some (f', w) ->
  hostHeader (headers w) =
    match Headers f !! "host"%string with
    | Some val => HostIs (os_ExpandEnv net val)
    | None =>
        match Headers f !! "Host"%string with
        | Some val => HostIs (os_ExpandEnv net val)
        | None => HostUnset
        end
    end /\
  (forall err, hostHeader (headers w) <> HostError err) /\
  (forall f'' w', GetRequester net f' = Some (f'', w') ->
                  headers w' = headers w /\ statusCheck w' = statusCheck w /\
                  urls w' = urls w /\ hosts w' = hosts w /\ url w' = url w).
Proof.
  intros Hnil Hget. unfold GetRequester in Hget. rewrite Hnil in Hget.
  destruct (if String.eqb (BodyFile f) "" then Some (Body f)
            else ioutil_ReadFile net (BodyFile f)) as [content|]; [|discriminate].
  injection Hget as <- <-. cbn [headers].
  assert (Hh := hostHeader_fmap net (Headers f)).
  split; [exact Hh|]. split.
  - intros err. rewrite Hh.
    destruct (Headers f !! "host"%string); [discriminate|].
    destruct (Headers f !! "Host"%string); discriminate.
  - intros f'' w'. unfold GetRequester.
    cbn [expandedHeaders BodyFile Body URL URLs Hosts Headers ExpectedHTTPStatusCode HTTPMethod].
    destruct (if String.eqb (BodyFile f) "" then Some content
              else ioutil_ReadFile net (BodyFile f)) as [content'|]; [|discriminate].
    intros [= _ <-]. repeat split.
Qed.

Lemma factory_host_header_witness :
  exists f' w,
    GetRequester plainNet
      (mkWebRequesterFactory "http://a/" None None
         (<["Host"%string := "b.example"%string]> {["host"%string := "a.example"%string]})
         "" "" 200 "GET" None) = Some (f', w) /\
    hostHeader (headers w) = HostIs "a.example".
Proof.
  destruct (GetRequester plainNet
      (mkWebRequesterFactory "http://a/" None None
         (<["Host"%string := "b.example"%string]> {["host"%string := "a.example"%string]})
         "" "" 200 "GET" None)) as [[f' w]|] eqn:E; [|discriminate].
  exists f', w. split; [reflexivity|].
  destruct (factory_host_header plainNet
      (mkWebRequesterFactory "http://a/" None None
         (<["Host"%string := "b.example"%string]> {["host"%string := "a.example"%string]})
         "" "" 200 "GET" None) f' w eq_refl E) as (H & _).
  rewrite H. cbn [Headers].
  rewrite lookup_insert_ne by discriminate. rewrite lookup_singleton_eq. reflexivity.
Defined.
